(** * The Gemini proxy handlers (api/gemini-2.5-flash.ts, api/gemini-proxy.ts)

    A shallow embedding of the two serverless handlers of the repository:
    the text handler (ENDPOINT [gemini-2.5-flash]) and the patched
    image-preview handler (ENDPOINT [gemini-2.5-flash-image-preview]).

    Conventions of the embedding.
    - A JavaScript string is a [string], the bytes of its UTF-8 encoding;
      [undefined] is [None].
    - [process.env] and [req.headers] are finite maps from names to
      strings.  The response headers are a finite map too: [res.setHeader]
      replaces the value stored under a name.  The sources spell every header
      name with one casing, so names are kept as written.
    - A request body is a JSON value or [undefined]; objects keep the order
      of their properties, as JavaScript objects do.
    - Builtins of the platform ([JSON.parse], [JSON.stringify], the number
      to string conversion, and [fetch] with the upstream behind it) are not
      code of the repository: they are the fields of the [Host] interface. *)

From Stdlib Require Import Ascii Floats.SpecFloat.
From stdpp Require Import base option list strings gmap.

Local Open Scope string_scope.

(** ** JavaScript values *)

Module JS.

(** JSON values.  A number is an IEEE-754 value, an object an ordered list
    of properties. *)
#[warnings="-register-all"]
Inductive json : Type :=
| JNull
| JBool (b : bool)
| JNum (n : spec_float)
| JStr (s : string)
| JArr (items : list json)
| JObj (props : list (string * json)).

(** A JavaScript value held by a variable of the handler: [None] is
    [undefined]. *)
Definition value : Type := option json.

(** The value a [catch] clause receives: the Error objects that [fetch] and
    [Response.text] reject with, seen through their [name] and [message]. *)
Record error : Type := Error { err_name : string; err_message : string }.

(** [ToBoolean] on strings: only the empty string is falsy. *)
Definition truthy_str (s : string) : bool := negb (String.eqb s "").

(** [ToBoolean] on JSON values. *)
Definition truthy (j : json) : bool :=
  match j with
  | JNull => false
  | JBool b => b
  | JNum (S754_zero _) | JNum S754_nan => false
  | JNum _ => true
  | JStr s => truthy_str s
  | JArr _ | JObj _ => true
  end.

Definition truthy_value (v : value) : bool :=
  match v with None => false | Some j => truthy j end.

(** [typeof v === 'object']: objects, arrays and [null]. *)
Definition typeof_object (v : value) : bool :=
  match v with
  | Some JNull | Some (JArr _) | Some (JObj _) => true
  | _ => false
  end.

(** [a || b] on an optional string, as in [process.env.X || ''] *)
Definition or_str (a : option string) (b : string) : string :=
  match a with
  | Some s => if truthy_str s then s else b
  | None => b
  end.

(** [a ?? b] on an optional string. *)
Definition nullish_str (a : option string) (b : string) : string :=
  match a with Some s => s | None => b end.

(** *** Own properties of an object *)

Fixpoint obj_get (k : string) (o : list (string * json)) : value :=
  match o with
  | [] => None
  | (k', v) :: o' => if String.eqb k k' then Some v else obj_get k o'
  end.

(** Assignment to an existing property keeps its place; a new property is
    appended. *)
Fixpoint obj_set (k : string) (v : json) (o : list (string * json))
  : list (string * json) :=
  match o with
  | [] => [(k, v)]
  | (k', v') :: o' =>
      if String.eqb k k' then (k, v) :: o' else (k', v') :: obj_set k v o'
  end.

Fixpoint obj_delete (k : string) (o : list (string * json))
  : list (string * json) :=
  match o with
  | [] => []
  | (k', v') :: o' =>
      if String.eqb k k' then obj_delete k o' else (k', v') :: obj_delete k o'
  end.

(** [j.k] on a value that is neither [undefined] nor [null], for the two
    property names the handlers read ([generationConfig] and
    [response_mime_type]): only an object has such a property; a boolean, a
    number, a string or an array gives [undefined]. *)
Definition get (j : json) (k : string) : value :=
  match j with
  | JObj o => obj_get k o
  | _ => None
  end.

(** [v?.k]: [undefined] when [v] is [undefined] or [null]. *)
Definition get_opt (v : value) (k : string) : value :=
  match v with
  | None | Some JNull => None
  | Some j => get j k
  end.

(** [v.k]: a TypeError when [v] is [undefined] or [null]. *)
Definition get_strict (v : value) (k : string) : error + value :=
  match v with
  | None | Some JNull => inl (Error "TypeError" "Cannot read properties")
  | Some j => inr (get j k)
  end.

(** [delete j.k]: removes an own property of an object, does nothing on
    any other value. *)
Definition delete_prop (j : json) (k : string) : json :=
  match j with
  | JObj o => JObj (obj_delete k o)
  | _ => j
  end.

(** The object [j] once the object stored in its property [k] was changed
    in place into [v]. *)
Definition with_prop (j : json) (k : string) (v : json) : json :=
  match j with
  | JObj o => JObj (obj_set k v o)
  | _ => j
  end.

(** [String(e)] on an Error object ([Error.prototype.toString]). *)
Definition error_toString (e : error) : string :=
  if String.eqb (err_name e) "" then err_message e
  else if String.eqb (err_message e) "" then err_name e
  else err_name e +:+ ": " +:+ err_message e.

End JS.

(** ** String operations of the allow-list parser *)

Module Str.

(** [s.split(',')]: the pieces between the separators; the empty string
    gives one empty piece. *)
Fixpoint split (sep : Ascii.ascii) (s : string) : list string :=
  match s with
  | "" => [""]
  | String c s' =>
      if Ascii.eqb c sep then "" :: split sep s'
      else match split sep s' with
           | piece :: pieces => String c piece :: pieces
           | [] => [String c ""]
           end
  end.

(** A string holds the UTF-8 encoding of the JavaScript string: a character
    of the JavaScript string is one to four bytes here, and the separator
    [,] is never part of a longer character. *)

(** The value of a byte. *)
Definition code (c : ascii) : nat := Ascii.nat_of_ascii c.

(** [trim] removes the WhiteSpace and LineTerminator characters of
    ECMAScript.  Those that take one byte: TAB, LF, VT, FF, CR and SP. *)
Definition white1 (c : ascii) : bool :=
  (Nat.leb 9 (code c) && Nat.leb (code c) 13) || Nat.eqb (code c) 32.

(** The one that takes two bytes: U+00A0, the no-break space. *)
Definition white2 (c1 c2 : ascii) : bool :=
  Nat.eqb (code c1) 194 && Nat.eqb (code c2) 160.

(** Those that take three bytes: U+1680, U+2000 to U+200A, U+2028, U+2029,
    U+202F, U+205F, U+3000 and U+FEFF. *)
Definition white3 (c1 c2 c3 : ascii) : bool :=
  (Nat.eqb (code c1) 225 && Nat.eqb (code c2) 154 && Nat.eqb (code c3) 128)
  || (Nat.eqb (code c1) 226 && Nat.eqb (code c2) 128
      && ((Nat.leb 128 (code c3) && Nat.leb (code c3) 138)
          || Nat.eqb (code c3) 168 || Nat.eqb (code c3) 169
          || Nat.eqb (code c3) 175))
  || (Nat.eqb (code c1) 226 && Nat.eqb (code c2) 129 && Nat.eqb (code c3) 159)
  || (Nat.eqb (code c1) 227 && Nat.eqb (code c2) 128 && Nat.eqb (code c3) 128)
  || (Nat.eqb (code c1) 239 && Nat.eqb (code c2) 187 && Nat.eqb (code c3) 191).

(** [s.trimStart()] *)
Fixpoint trimStart (s : string) : string :=
  match s with
  | "" => ""
  | String c1 s1 =>
      if white1 c1 then trimStart s1
      else
        match s1 with
        | "" => s
        | String c2 s2 =>
            if white2 c1 c2 then trimStart s2
            else
              match s2 with
              | "" => s
              | String c3 s3 => if white3 c1 c2 c3 then trimStart s3 else s
              end
        end
  end.

(** The string is white space from its first to its last character. *)
Definition all_white (s : string) : bool := String.eqb (trimStart s) "".

(** [s.trimEnd()]: the string up to the place from which all is white
    space.  No such place is inside a character: the bytes that continue a
    character start no white space. *)
Fixpoint trimEnd (s : string) : string :=
  match s with
  | "" => ""
  | String c s' => if all_white s then "" else String c (trimEnd s')
  end.

(** [s.trim()] *)
Definition trim (s : string) : string := trimEnd (trimStart s).

(** [list.includes(s)] *)
Definition includes (s : string) (l : list string) : bool :=
  existsb (String.eqb s) l.

End Str.

(** ** Requests, responses and the platform *)

Module Http.
Import JS.

(** [process.env] *)
Abbreviation Env := (gmap string string).

(** The part of a [VercelRequest] the handlers read.  [req_headers] has the
    lower-case names Node gives to incoming headers. *)
Record VercelRequest : Type := Request {
  method : string;
  req_headers : gmap string string;
  body : value;
}.

(** What ends a response: [res.end()], [res.json(j)] or [res.send(text)]. *)
Inductive payload : Type :=
| Pending
| Empty
| Json (j : json)
| Text (s : string).

(** The state of a [VercelResponse]. *)
Record VercelResponse : Type := Response {
  statusCode : Z;
  headers : gmap string string;
  sent : payload;
}.

(** A fresh response: status 200, no header, nothing sent. *)
Definition fresh : VercelResponse := Response 200 ∅ Pending.

Definition setHeader (name v : string) (res : VercelResponse) : VercelResponse :=
  Response (statusCode res) (<[name := v]> (headers res)) (sent res).

Definition status (code : Z) (res : VercelResponse) : VercelResponse :=
  Response code (headers res) (sent res).

Definition end_ (res : VercelResponse) : VercelResponse :=
  Response (statusCode res) (headers res) Empty.

Definition json_ (j : json) (res : VercelResponse) : VercelResponse :=
  Response (statusCode res) (headers res) (Json j).

Definition send (text : string) (res : VercelResponse) : VercelResponse :=
  Response (statusCode res) (headers res) (Text text).

(** The argument of [fetch]. *)
Record FetchRequest : Type := Fetch {
  url : string;
  fetch_method : string;
  fetch_headers : list (string * string);
  fetch_body : string;
}.

(** The [Response] object [fetch] resolves to: its status, the result of
    [headers.get('Content-Type')] ([None] is [null]) and the outcome of
    [await text()], which may reject. *)
Record Upstream : Type := UpstreamResponse {
  up_status : Z;
  up_content_type : option string;
  up_text : error + string;
}.

(** The builtins the handlers call.  [JSON_parse] gives [None] where
    [JSON.parse] throws; [fetch] gives [inl e] where the promise rejects
    with [e]. *)
Class Host : Type := {
  JSON_parse : string → option json;
  JSON_stringify : json → string;
  Number_toString : spec_float → string;
  fetch : FetchRequest → error + Upstream;
}.

(** What [JSON.parse] and [JSON.stringify] do on the two literals the
    handlers depend on. *)
Class HostLaws (H : Host) : Prop := {
  parse_empty_object : JSON_parse "{}" = Some (JObj []);
  stringify_empty_object : JSON_stringify (JObj []) = "{}";
  stringify_null : JSON_stringify JNull = "null";
}.

(** One run of a handler: the calls it made to [fetch], in order, and the
    response it left. *)
Record Run : Type := Ran {
  calls : list FetchRequest;
  res : VercelResponse;
}.

End Http.

(** ** The steps both files spell out in the same words *)

Module Steps.
Import JS Http.

(** Sequencing of steps that may throw. *)
#[global] Instance throw_bind : MBind (sum error) := λ A B k m,
  match m with
  | inl e => inl e
  | inr a => k a
  end.

(** The JSON error bodies. *)
Definition error_body (msg : string) : json := JObj [("error", JStr msg)].

Definition failure_body (msg detail : string) : json :=
  JObj [("error", JStr msg); ("detail", JStr detail)].

(** [(req.headers[name] as string) || ''] *)
Definition header_or_empty (req : VercelRequest) (name : string) : string :=
  or_str (req_headers req !! name) "".

(** [!apiKey] for [apiKey = process.env.GEMINI_API_KEY] *)
Definition missing (v : option string) : bool :=
  match v with
  | Some s => negb (truthy_str s)
  | None => true
  end.

(** The body of the [try] that removes [response_mime_type]:
    [if (body?.generationConfig?.response_mime_type)
       delete body.generationConfig.response_mime_type;]
    The deletion changes the [generationConfig] object that [body] holds. *)
Definition sanitize_try (body : json) : error + json :=
  if truthy_value
       (get_opt (get_opt (Some body) "generationConfig") "response_mime_type")
  then
    config ← get_strict (Some body) "generationConfig";
    match config with
    | None | Some JNull => inl (Error "TypeError" "Cannot convert to object")
    | Some c =>
        inr (with_prop body "generationConfig"
               (delete_prop c "response_mime_type"))
    end
  else inr body.

(** [try { ... } catch {}]: an exception leaves the body as it was. *)
Definition sanitize (body : json) : json :=
  match sanitize_try body with
  | inr body' => body'
  | inl _ => body
  end.

(** [String(err?.message || err)] *)
Definition detail_of (err : error) : string :=
  if truthy_str (err_message err) then err_message err else error_toString err.

Section WithHost.
Context `{Host}.

(** [typeof req.body === 'object' ? req.body : JSON.parse(req.body || '{}')];
    [None] where [JSON.parse] throws.  [JSON.parse] converts its argument to
    a string first. *)
Definition parse_body (b : value) : option json :=
  if typeof_object b then b
  else
    JSON_parse
      match b with
      | Some (JStr s) => or_str (Some s) "{}"
      | Some (JBool true) => "true"
      | Some (JNum n) => if truthy (JNum n) then Number_toString n else "{}"
      | _ => "{}"
      end.

(** The call [fetch(ENDPOINT, { method, headers, body })] of both files. *)
Definition upstream_request (endpoint apiKey : string) (body : json)
  : FetchRequest :=
  Fetch endpoint "POST"
    [("Content-Type", "application/json"); ("x-goog-api-key", apiKey)]
    (JSON_stringify body).

(** [await fetch(...)] followed by [await upstream.text()] *)
Definition fetch_text (rq : FetchRequest) : error + (Upstream * string) :=
  upstream ← fetch rq;
  text ← up_text upstream;
  inr (upstream, text).

End WithHost.

End Steps.

(** ** api/gemini-2.5-flash.ts: the text handler *)

Module TextHandler.
Import JS Http Steps.

Definition ENDPOINT : string :=
  "https://generativelanguage.googleapis.com/v1beta/models/gemini-2.5-flash:generateContent".

(** [getAllowedOrigins()] *)
Definition getAllowedOrigins (env : Env) : list string :=
  let list := or_str (env !! "ALLOWED_ORIGINS") "" in
  List.filter truthy_str (List.map Str.trim (Str.split ","%char list)).

Section WithHost.
Context `{Host}.

Definition handler (env : Env) (req : VercelRequest) : Run :=
  let res := fresh in
  let origin := header_or_empty req "origin" in
  let allowList := getAllowedOrigins env in
  let allowOrigin :=
    if Nat.eqb (length allowList) 0 || Str.includes origin allowList
    then or_str (Some origin) "*"
    else "" in
  (* CORS *)
  let res := setHeader "Access-Control-Allow-Methods" "POST, OPTIONS" res in
  let res :=
    setHeader "Access-Control-Allow-Headers" "Content-Type, X-Client-Token" res in
  let res :=
    if truthy_str allowOrigin
    then setHeader "Access-Control-Allow-Origin" allowOrigin res
    else res in
  if String.eqb (method req) "OPTIONS" then Ran [] (end_ (status 204 res))
  else if negb (String.eqb (method req) "POST")
  then Ran [] (json_ (error_body "Only POST allowed") (status 405 res))
  else
  let apiKey := env !! "GEMINI_API_KEY" in
  if missing apiKey
  then Ran [] (json_ (error_body "Server misconfigured: missing GEMINI_API_KEY")
                 (status 500 res))
  else
  let requiredToken := or_str (env !! "CLIENT_TOKEN") "" in
  if truthy_str requiredToken
     && negb (String.eqb (header_or_empty req "x-client-token") requiredToken)
  then Ran [] (json_ (error_body "Unauthorized") (status 401 res))
  else
  match parse_body (body req) with
  | None => Ran [] (json_ (error_body "Invalid JSON") (status 400 res))
  | Some body =>
      let body := sanitize body in
      (* [apiKey] is a string here *)
      let rq := upstream_request ENDPOINT (nullish_str apiKey "") body in
      match fetch_text rq with
      | inr (upstream, text) =>
          let res := status (up_status upstream) res in
          let res :=
            setHeader "Content-Type"
              (or_str (up_content_type upstream) "application/json") res in
          let res :=
            if truthy_str allowOrigin
            then setHeader "Access-Control-Allow-Origin" allowOrigin res
            else res in
          Ran [rq] (send text res)
      | inl err =>
          Ran [rq] (json_ (failure_body "Upstream fetch failed" (detail_of err))
                      (status 502 res))
      end
  end.

End WithHost.

End TextHandler.

(** ** api/gemini-proxy.ts: the image-preview handler *)

Module ImageHandler.
Import JS Http Steps.

Definition ENDPOINT : string :=
  "https://generativelanguage.googleapis.com/v1beta/models/gemini-2.5-flash-image-preview:generateContent".

(** [parseAllowed()] *)
Definition parseAllowed (env : Env) : list string :=
  List.filter truthy_str
    (List.map Str.trim (Str.split ","%char (or_str (env !! "ALLOWED_ORIGINS") ""))).

(** [setCors(res, originHeader)] *)
Definition setCors (env : Env) (originHeader : option string)
    (res : VercelResponse) : VercelResponse :=
  let origin := nullish_str originHeader "" in
  let allowList := parseAllowed env in
  let allowAny :=
    Nat.eqb (length allowList) 0 || Str.includes origin allowList
    || String.eqb origin "null" in
  let allowOrigin := if allowAny then or_str (Some origin) "*" else "" in
  let res :=
    if truthy_str allowOrigin
    then setHeader "Access-Control-Allow-Origin" allowOrigin res
    else res in
  let res := setHeader "Vary" "Origin" res in
  let res := setHeader "Access-Control-Allow-Methods" "POST, OPTIONS" res in
  setHeader "Access-Control-Allow-Headers" "Content-Type, X-Client-Token" res.

Section WithHost.
Context `{Host}.

Definition handler (env : Env) (req : VercelRequest) : Run :=
  let res := setCors env (req_headers req !! "origin") fresh in
  if String.eqb (method req) "OPTIONS" then Ran [] (end_ (status 204 res))
  else if negb (String.eqb (method req) "POST")
  then Ran [] (json_ (error_body "Only POST allowed") (status 405 res))
  else
  let apiKey := env !! "GEMINI_API_KEY" in
  if missing apiKey
  then Ran [] (json_ (error_body "Server misconfigured: missing GEMINI_API_KEY")
                 (status 500 res))
  else
  let requiredToken := or_str (env !! "CLIENT_TOKEN") "" in
  if truthy_str requiredToken
     && negb (String.eqb (header_or_empty req "x-client-token") requiredToken)
  then Ran [] (json_ (error_body "Unauthorized") (status 401 res))
  else
  match parse_body (body req) with
  | None => Ran [] (json_ (error_body "Invalid JSON") (status 400 res))
  | Some body =>
      let body := sanitize body in
      (* [apiKey] is a string here *)
      let rq := upstream_request ENDPOINT (nullish_str apiKey "") body in
      match fetch_text rq with
      | inr (upstream, text) =>
          let res := status (up_status upstream) res in
          let res :=
            setHeader "Content-Type"
              (or_str (up_content_type upstream) "application/json") res in
          let res := setCors env (req_headers req !! "origin") res in
          Ran [rq] (send text res)
      | inl err =>
          let res := setCors env (req_headers req !! "origin") res in
          Ran [rq] (json_ (failure_body "Upstream fetch failed" (detail_of err))
                      (status 502 res))
      end
  end.

End WithHost.

End ImageHandler.

(** ** Vocabulary of the properties *)

Module Props.
Import JS Http Steps.

(** The value found at [body.generationConfig.response_mime_type], read
    without throwing. *)
Definition mime_type (body : json) : value :=
  get_opt (get_opt (Some body) "generationConfig") "response_mime_type".

(** The origin a request announces; the empty string when it has none. *)
Definition origin_of (req : VercelRequest) : string :=
  header_or_empty req "origin".

(** The configured client token; the empty string when none is set. *)
Definition client_token (env : Env) : string :=
  or_str (env !! "CLIENT_TOKEN") "".

(** Two requests that differ at most in their [X-Client-Token] header. *)
Definition same_but_token (req req' : VercelRequest) : Prop :=
  method req' = method req ∧ body req' = body req ∧
  ∀ name, name ≠ "x-client-token" → req_headers req' !! name = req_headers req !! name.

(** Two configurations that differ at most in [CLIENT_TOKEN]. *)
Definition same_but_client_token (env env' : Env) : Prop :=
  ∀ name, name ≠ "CLIENT_TOKEN" → env' !! name = env !! name.

Section WithHost.
Context `{Host}.

(** A POST request that passes every check of the admission sequence: the
    API key [apiKey] is configured, the client token (if one is required)
    matches, and the body parses to [b]. *)
Definition accepted (env : Env) (req : VercelRequest) (apiKey : string)
    (b : json) : Prop :=
  method req = "POST"
  ∧ env !! "GEMINI_API_KEY" = Some apiKey ∧ apiKey ≠ ""
  ∧ (client_token env = ""
     ∨ header_or_empty req "x-client-token" = client_token env)
  ∧ parse_body (body req) = Some b.

End WithHost.


(** The response reports the failure [err] of the upstream call: its detail
    is the message of the failure, or its name when it has no message. *)
Definition reports_failure (r : VercelResponse) (err : error) : Prop :=
  statusCode r = 502%Z
  ∧ ∃ detail,
      sent r = Json (JObj [("error", JStr "Upstream fetch failed");
                           ("detail", JStr detail)])
      ∧ (err_message err ≠ "" → detail = err_message err)
      ∧ (err_message err = "" → detail = err_name err)
      ∧ (detail = "" ↔ err_message err = "" ∧ err_name err = "").

(** The response is the rejection of a POST request without API key. *)
Definition misconfigured (run : Run) : Prop :=
  statusCode (res run) = 500%Z
  ∧ sent (res run)
    = Json (JObj [("error", JStr "Server misconfigured: missing GEMINI_API_KEY")])
  ∧ calls run = [].

(** The response is the rejection of a request without the client token. *)
Definition unauthorized (run : Run) : Prop :=
  statusCode (res run) = 401%Z
  ∧ sent (res run) = Json (JObj [("error", JStr "Unauthorized")])
  ∧ calls run = [].

(** The response is the preflight acknowledgement. *)
Definition preflight_ack (run : Run) : Prop :=
  statusCode (res run) = 204%Z
  ∧ sent (res run) = Empty
  ∧ calls run = []
  ∧ headers (res run) !! "Access-Control-Allow-Methods" = Some "POST, OPTIONS"
  ∧ headers (res run) !! "Access-Control-Allow-Headers"
    = Some "Content-Type, X-Client-Token".

(** The request went to the upstream once, with the text [text] as body,
    and the response is not the rejection of an unparsable body. *)
Definition forwarded_as (run : Run) (text : string) : Prop :=
  fetch_body <$> calls run = [text]
  ∧ sent (res run) ≠ Json (JObj [("error", JStr "Invalid JSON")]).

End Props.

(** ** Sample configurations, requests and hosts *)

Module Sample.
Import JS Http Steps.

(** A host that reads and writes the JSON literals only, in front of an
    upstream that answers every call with [answer]. *)
Definition literal_parse (s : string) : option json :=
  if String.eqb s "{}" then Some (JObj [])
  else if String.eqb s "null" then Some JNull
  else if String.eqb s "true" then Some (JBool true)
  else if String.eqb s "false" then Some (JBool false)
  else None.

Definition literal_stringify (j : json) : string :=
  match j with
  | JNull => "null"
  | JBool true => "true"
  | JBool false => "false"
  | JObj [] => "{}"
  | JArr [] => "[]"
  | _ => "{...}"
  end.

Definition literal_host (answer : error + Upstream) : Host :=
  {| JSON_parse := literal_parse;
     JSON_stringify := literal_stringify;
     Number_toString := λ _, "0";
     fetch := λ _, answer |}.

Definition ok_json : Upstream :=
  UpstreamResponse 200 (Some "application/json") (inr "{}").

Definition quota_exceeded : Upstream :=
  UpstreamResponse 429 (Some "text/plain") (inr "slow down").


Definition fetch_failed : error := Error "TypeError" "fetch failed".


(** U+00A0, the no-break space. *)
Definition nbsp : string := String "194"%char (String "160"%char "").

(** Configurations. *)
Definition open_env : Env := {[ "GEMINI_API_KEY" := "k-123" ]}.

Definition restricted_env : Env :=
  {[ "GEMINI_API_KEY" := "k-123";
     "ALLOWED_ORIGINS" := "https://app.example, https://www.app.example" ]}.

Definition token_env : Env :=
  {[ "GEMINI_API_KEY" := "k-123"; "CLIENT_TOKEN" := "s3cret" ]}.

Definition keyless_env : Env := {[ "CLIENT_TOKEN" := "s3cret" ]}.

(** Requests. *)
Definition preflight_from_file : VercelRequest :=
  Request "OPTIONS" {[ "origin" := "null" ]} None.

Definition preflight_from_stranger : VercelRequest :=
  Request "OPTIONS" {[ "origin" := "https://evil.example" ]} None.

Definition post_empty : VercelRequest :=
  Request "POST" {[ "origin" := "https://app.example" ]} (Some (JObj [])).

Definition post_no_body : VercelRequest := Request "POST" ∅ None.

Definition post_null : VercelRequest := Request "POST" ∅ (Some JNull).

Definition post_with_token : VercelRequest :=
  Request "POST" {[ "x-client-token" := "wrong" ]} (Some (JObj [])).

(** Bodies. *)
Definition body_with_mime : json :=
  JObj [("contents", JArr []);
        ("generationConfig",
          JObj [("temperature", JBool true);
                ("response_mime_type", JStr "application/json")])].


End Sample.

(** ** Vocabulary of the further properties *)

Module Shape.
Import JS Http Steps Props.

(** The character [c] occurs in [s]. *)
Fixpoint has_char (c : ascii) (s : string) : bool :=
  match s with
  | "" => false
  | String c' s' => Ascii.eqb c' c || has_char c s'
  end.

(** A string made of commas and white space only. *)
Fixpoint blank (s : string) : bool :=
  match s with
  | "" => true
  | String c1 s1 =>
      if Ascii.eqb c1 ","%char || Str.white1 c1 then blank s1
      else
        match s1 with
        | "" => false
        | String c2 s2 =>
            if Str.white2 c1 c2 then blank s2
            else
              match s2 with
              | "" => false
              | String c3 s3 => Str.white3 c1 c2 c3 && blank s3
              end
        end
  end.

(** A byte that continues a character. *)
Definition cont (c : ascii) : bool :=
  Nat.leb 128 (Str.code c) && Nat.leb (Str.code c) 191.

(** The string past its first character, when that is white space. *)
Definition skip (s : string) : option string :=
  match s with
  | "" => None
  | String c1 s1 =>
      if Str.white1 c1 then Some s1
      else
        match s1 with
        | "" => None
        | String c2 s2 =>
            if Str.white2 c1 c2 then Some s2
            else
              match s2 with
              | "" => None
              | String c3 s3 => if Str.white3 c1 c2 c3 then Some s3 else None
              end
        end
  end.
(** An allow-list entry as one writes it: not empty, without a comma and
    without white space around it. *)
Definition entry (s : string) : Prop :=
  s ≠ "" ∧ has_char ","%char s = false ∧ Str.trim s = s.

(** The names of the properties of an object, in order. *)
Definition keys (o : list (string * json)) : list string := o.*1.

(** The five response headers the handlers know. *)
Definition known_headers : list string :=
  ["Access-Control-Allow-Origin"; "Access-Control-Allow-Methods";
   "Access-Control-Allow-Headers"; "Vary"; "Content-Type"].

(** The four shapes a finished run can have: the preflight acknowledgement,
    a rejection before the upstream call, the report of a failed upstream
    call, and the relay of the upstream answer. *)
Inductive outcome (req : VercelRequest) (run : Run) : Prop :=
| Acknowledged :
    method req = "OPTIONS" → statusCode (res run) = 204%Z →
    sent (res run) = Empty → calls run = [] → outcome req run
| Rejected (code : Z) (msg : string) :
    (code, msg) ∈ [(405%Z, "Only POST allowed");
                   (500%Z, "Server misconfigured: missing GEMINI_API_KEY");
                   (401%Z, "Unauthorized"); (400%Z, "Invalid JSON")] →
    statusCode (res run) = code →
    sent (res run) = Json (JObj [("error", JStr msg)]) →
    calls run = [] → outcome req run
| Failed (rq : FetchRequest) (detail : string) :
    method req = "POST" → statusCode (res run) = 502%Z →
    sent (res run) = Json (JObj [("error", JStr "Upstream fetch failed");
                                 ("detail", JStr detail)]) →
    calls run = [rq] → outcome req run
| Relayed (rq : FetchRequest) (text : string) :
    method req = "POST" → sent (res run) = Text text →
    calls run = [rq] → outcome req run.

Section WithHost.
Context `{Host}.

(** The host answers the calls to the two endpoints alike. *)
Definition endpoint_blind : Prop :=
  ∀ key b,
    fetch_text (upstream_request TextHandler.ENDPOINT key b)
    = fetch_text (upstream_request ImageHandler.ENDPOINT key b).

(** A request that passes the method, API key and client token tests. *)
Definition cleared (env : Env) (req : VercelRequest) (apiKey : string) : Prop :=
  method req = "POST"
  ∧ env !! "GEMINI_API_KEY" = Some apiKey ∧ apiKey ≠ ""
  ∧ (client_token env = ""
     ∨ header_or_empty req "x-client-token" = client_token env).

End WithHost.

End Shape.

(** * Properties *)

(** ** Properties of objects *)

Module ObjectFacts.
Import JS.

Lemma truthy_str_true (s : string) : truthy_str s = true ↔ s ≠ "".
Proof.
  unfold truthy_str. destruct (String.eqb_spec s ""); simpl; split; congruence.
Qed.

Lemma truthy_str_false (s : string) : truthy_str s = false ↔ s = "".
Proof.
  unfold truthy_str. destruct (String.eqb_spec s ""); simpl; split; congruence.
Qed.

Lemma or_str_empty (o : option string) :
  or_str o "" = nullish_str o "".
Proof.
  destruct o as [s|]; simpl; [|done].
  destruct (truthy_str s) eqn:E; [done|]. by apply truthy_str_false in E.
Qed.

Section Properties.
Variables (k : string) (o : list (string * json)).

Lemma obj_get_set_eq (v : json) : obj_get k (obj_set k v o) = Some v.
Proof.
  induction o as [|[k' v'] o' IH]; simpl.
  - by rewrite String.eqb_refl.
  - destruct (String.eqb_spec k k') as [->|Hne]; simpl.
    + by rewrite String.eqb_refl.
    + by destruct (String.eqb_spec k k').
Qed.


Lemma obj_get_delete_eq : obj_get k (obj_delete k o) = None.
Proof.
  induction o as [|[k' v'] o' IH]; simpl; [done|].
  destruct (String.eqb_spec k k') as [->|Hne]; simpl; [done|].
  by destruct (String.eqb_spec k k').
Qed.


Lemma obj_delete_absent : obj_get k o = None → obj_delete k o = o.
Proof.
  induction o as [|[k' v'] o' IH]; simpl; [done|].
  destruct (String.eqb_spec k k'); [done|]. intros E. by rewrite IH.
Qed.

End Properties.

End ObjectFacts.

(** ** The body sanitizer *)

Module SanitizerFacts.
Import JS Http Steps Props ObjectFacts.

(** A body with a value at [generationConfig.response_mime_type] is an
    object whose [generationConfig] is an object with that property. *)
Lemma mime_type_Some (body m : json) :
  mime_type body = Some m →
  ∃ o c, body = JObj o
         ∧ obj_get "generationConfig" o = Some (JObj c)
         ∧ obj_get "response_mime_type" c = Some m.
Proof.
  unfold mime_type. destruct body as [| | | | |o]; simpl; try done.
  destruct (obj_get "generationConfig" o) as [[| | | | |c]|] eqn:Ec;
    simpl; try done.
  intros Em. by exists o, c.
Qed.

Lemma sanitize_truthy (o c : list (string * json)) (m : json) :
  obj_get "generationConfig" o = Some (JObj c) →
  obj_get "response_mime_type" c = Some m →
  truthy m = true →
  sanitize_try (JObj o)
  = inr (JObj (obj_set "generationConfig"
                 (JObj (obj_delete "response_mime_type" c)) o)).
Proof.
  intros Ec Em Ht. unfold sanitize_try. simpl. rewrite Ec. simpl.
  rewrite Em. simpl. by rewrite Ht.
Qed.

Lemma sanitize_falsy (body : json) :
  truthy_value (mime_type body) = false → sanitize_try body = inr body.
Proof. unfold sanitize_try, mime_type. by intros ->. Qed.


End SanitizerFacts.

(** ** The response object *)

Module ResponseFacts.
Import JS Http.

Section Projections.
Variables (name v : string) (code : Z) (j : json) (text : string)
  (r : VercelResponse).

Lemma lookup_fresh : headers fresh !! name = None.
Proof. apply lookup_empty. Qed.

Lemma lookup_setHeader_eq : headers (setHeader name v r) !! name = Some v.
Proof. apply lookup_insert_eq. Qed.

Lemma lookup_setHeader_ne (name' : string) :
  name ≠ name' → headers (setHeader name v r) !! name' = headers r !! name'.
Proof. apply lookup_insert_ne. Qed.

Lemma statusCode_setHeader : statusCode (setHeader name v r) = statusCode r.
Proof. done. Qed.

Lemma sent_setHeader : sent (setHeader name v r) = sent r.
Proof. done. Qed.

Lemma headers_status : headers (status code r) = headers r.
Proof. done. Qed.

Lemma statusCode_status : statusCode (status code r) = code.
Proof. done. Qed.

Lemma sent_status : sent (status code r) = sent r.
Proof. done. Qed.

Lemma headers_end : headers (end_ r) = headers r.
Proof. done. Qed.

Lemma statusCode_end : statusCode (end_ r) = statusCode r.
Proof. done. Qed.

Lemma sent_end : sent (end_ r) = Empty.
Proof. done. Qed.

Lemma headers_json : headers (json_ j r) = headers r.
Proof. done. Qed.

Lemma statusCode_json : statusCode (json_ j r) = statusCode r.
Proof. done. Qed.

Lemma sent_json : sent (json_ j r) = Json j.
Proof. done. Qed.

Lemma headers_send : headers (send text r) = headers r.
Proof. done. Qed.

Lemma statusCode_send : statusCode (send text r) = statusCode r.
Proof. done. Qed.

Lemma sent_send : sent (send text r) = Text text.
Proof. done. Qed.

End Projections.

Create Rewrite HintDb response.
#[export] Hint Rewrite lookup_fresh lookup_setHeader_eq statusCode_setHeader
  sent_setHeader headers_status statusCode_status sent_status headers_end
  statusCode_end sent_end headers_json statusCode_json sent_json headers_send
  statusCode_send sent_send : response.
#[export] Hint Rewrite lookup_setHeader_ne using discriminate : response.

(** Reads a field of a response built by a chain of calls. *)
Ltac response := cbn [res calls]; autorewrite with response; try done.

End ResponseFacts.

(** ** The admission sequence *)

Module AdmissionFacts.
Import JS Http Steps Props ObjectFacts.

Lemma not_options (req : VercelRequest) :
  method req = "POST" → String.eqb (method req) "OPTIONS" = false.
Proof. by intros ->. Qed.

Lemma is_post (req : VercelRequest) :
  method req = "POST" → negb (String.eqb (method req) "POST") = false.
Proof. by intros ->. Qed.

Lemma missing_None : missing None = true.
Proof. done. Qed.

Lemma missing_Some (key : string) : key ≠ "" → missing (Some key) = false.
Proof. intros Hk. simpl. by apply truthy_str_true in Hk as ->. Qed.

(** The token test of both handlers fails the request exactly when a token
    is required and the header differs from it. *)
Lemma token_rejected (env : Env) (req : VercelRequest) :
  client_token env ≠ "" →
  header_or_empty req "x-client-token" ≠ client_token env →
  truthy_str (client_token env)
  && negb (String.eqb (header_or_empty req "x-client-token") (client_token env))
  = true.
Proof.
  intros Hreq Hne. apply truthy_str_true in Hreq as ->.
  by destruct (String.eqb_spec (header_or_empty req "x-client-token")
                 (client_token env)).
Qed.

Lemma token_passed (env : Env) (req : VercelRequest) :
  client_token env = ""
  ∨ header_or_empty req "x-client-token" = client_token env →
  truthy_str (client_token env)
  && negb (String.eqb (header_or_empty req "x-client-token") (client_token env))
  = false.
Proof.
  intros [Hnone|Heq].
  - by apply truthy_str_false in Hnone as ->.
  - rewrite Heq, String.eqb_refl. by rewrite andb_false_r.
Qed.

(** A header that is absent or differs from the required token. *)
Lemma header_mismatch (env : Env) (req : VercelRequest) :
  client_token env ≠ "" →
  req_headers req !! "x-client-token" ≠ Some (client_token env) →
  header_or_empty req "x-client-token" ≠ client_token env.
Proof.
  intros Hreq Hne. unfold header_or_empty.
  destruct (req_headers req !! "x-client-token") as [got|]; simpl; [|done].
  destruct (truthy_str got) eqn:Hgot; congruence.
Qed.

Lemma or_str_Some (s d : string) : s ≠ "" → or_str (Some s) d = s.
Proof. intros Hs. simpl. by apply truthy_str_true in Hs as ->. Qed.


(** The detail of a failure that has a name or a message is not empty. *)
Lemma detail_nonempty (err : error) :
  err_message err ≠ "" ∨ err_name err ≠ "" → detail_of err ≠ "".
Proof.
  unfold detail_of, error_toString. intros Hsome.
  destruct (truthy_str (err_message err)) eqn:Hm.
  - by apply truthy_str_true.
  - apply truthy_str_false in Hm. rewrite Hm in *.
    destruct Hsome as [?|Hn]; [done|].
    by destruct (String.eqb_spec (err_name err) "").
Qed.

(** The detail is the message of the failure, or its name when it has no
    message. *)
Lemma detail_of_cases (err : error) :
  (err_message err ≠ "" → detail_of err = err_message err)
  ∧ (err_message err = "" → detail_of err = err_name err)
  ∧ (detail_of err = "" ↔ err_message err = "" ∧ err_name err = "").
Proof.
  unfold detail_of, error_toString.
  destruct (truthy_str (err_message err)) eqn:Hm.
  - apply truthy_str_true in Hm. repeat split; try done. by intros [? _].
  - apply truthy_str_false in Hm. rewrite Hm.
    destruct (String.eqb_spec (err_name err) "") as [Hn|Hn].
    + rewrite Hn. by repeat split.
    + repeat split; try done. by intros [_ ?].
Qed.

Section Fetch.
Context `{Host}.
Variable (rq : FetchRequest).



End Fetch.

(** Takes a POST request past the two method tests. *)
Ltac past_method Hm :=
  rewrite (not_options _ Hm), (is_post _ Hm); cbv iota.

(** Takes a request past the API key test. *)
Ltac past_key Hk Hne := rewrite Hk, (missing_Some _ Hne); cbv iota.

(** Takes a request past the client token test. *)
Ltac past_token Htok :=
  let E := fresh "E" in
  pose proof (token_passed _ _ Htok) as E; unfold client_token in E;
  rewrite E; clear E; cbv iota.

(** Takes an accepted request to the call of [fetch]. *)
Ltac to_fetch Hacc :=
  let Hm := fresh "Hm" in let Hk := fresh "Hk" in let Hne := fresh "Hne" in
  let Htok := fresh "Htok" in let Hb := fresh "Hb" in
  destruct Hacc as (Hm & Hk & Hne & Htok & Hb);
  cbv zeta; past_method Hm; past_key Hk Hne; past_token Htok;
  rewrite Hb; cbv iota beta; cbn [nullish_str].

End AdmissionFacts.

(** ** Allow-lists *)

Module AllowListFacts.
Import JS ObjectFacts.

Lemma includes_true (s : string) (l : list string) :
  Str.includes s l = true ↔ s ∈ l.
Proof.
  unfold Str.includes. rewrite existsb_exists. split.
  - intros (x & Hin & Heq). apply String.eqb_eq in Heq as ->.
    by apply list_elem_of_In.
  - intros Hin. exists s. split; [by apply list_elem_of_In|].
    apply String.eqb_refl.
Qed.

Lemma includes_false (s : string) (l : list string) :
  Str.includes s l = false ↔ s ∉ l.
Proof.
  rewrite <- includes_true. by destruct (Str.includes s l).
Qed.

Lemma length_zero {A : Type} (l : list A) :
  Nat.eqb (length l) 0 = true ↔ l = [].
Proof. by destruct l. Qed.

Lemma length_nonzero {A : Type} (l : list A) :
  Nat.eqb (length l) 0 = false ↔ l ≠ [].
Proof. by destruct l. Qed.

(** The origin answered to an allowed request is never the empty string. *)
Lemma truthy_or_star (origin : string) :
  truthy_str (or_str (Some origin) "*") = true.
Proof. simpl. by destruct (truthy_str origin) eqn:E. Qed.

(** Empty entries are filtered out of the allow-list. *)
Lemma allow_list_no_empty (env : gmap string string) :
  "" ∉ TextHandler.getAllowedOrigins env.
Proof.
  unfold TextHandler.getAllowedOrigins. rewrite list_elem_of_In, filter_In.
  by intros [_ ?].
Qed.

Lemma parseAllowed_eq (env : gmap string string) :
  ImageHandler.parseAllowed env = TextHandler.getAllowedOrigins env.
Proof. done. Qed.

End AllowListFacts.

(** ** The text handler *)

Module TextFacts.
Import JS Http Steps Props ObjectFacts ResponseFacts AdmissionFacts
  AllowListFacts TextHandler.
Local Open Scope Z_scope.

Section WithHost.
Context `{Host}.
Variables (env : Env) (req : VercelRequest).

(** The two fixed CORS headers are on the response of every path. *)
Lemma text_fixed_headers :
  headers (res (handler env req)) !! "Access-Control-Allow-Methods"
  = Some "POST, OPTIONS"
  ∧ headers (res (handler env req)) !! "Access-Control-Allow-Headers"
    = Some "Content-Type, X-Client-Token".
Proof. unfold handler. cbv zeta. split; repeat case_match; response. Qed.

(** A refused origin gets no allow-origin header, on any path. *)
Lemma text_origin_refused :
  getAllowedOrigins env ≠ [] →
  origin_of req ∉ getAllowedOrigins env →
  headers (res (handler env req)) !! "Access-Control-Allow-Origin" = None.
Proof.
  intros Hlist Hout. apply length_nonzero in Hlist.
  apply includes_false in Hout. unfold origin_of in Hout.
  unfold handler. cbv zeta. rewrite Hlist, Hout. cbn [orb truthy_str String.eqb negb].
  repeat case_match; response.
Qed.

(** An allowed origin is echoed, [*] standing for a missing one. *)
Lemma text_origin_allowed :
  getAllowedOrigins env = [] ∨ origin_of req ∈ getAllowedOrigins env →
  headers (res (handler env req)) !! "Access-Control-Allow-Origin"
  = Some (or_str (Some (origin_of req)) "*").
Proof.
  intros Hin.
  assert (Nat.eqb (length (getAllowedOrigins env)) 0
          || Str.includes (origin_of req) (getAllowedOrigins env) = true) as E.
  { destruct Hin as [->|Hin]; [done|].
    apply includes_true in Hin as ->. apply orb_true_r. }
  unfold origin_of in *. unfold handler. cbv zeta. rewrite E.
  rewrite truthy_or_star. repeat case_match; response.
Qed.

(** Preflight. *)
Lemma text_preflight :
  method req = "OPTIONS" →
  statusCode (res (handler env req)) = 204
  ∧ sent (res (handler env req)) = Empty
  ∧ calls (handler env req) = [].
Proof.
  intros Hm. unfold handler. cbv zeta. rewrite Hm.
  change (String.eqb "OPTIONS" "OPTIONS") with true. cbv iota.
  repeat split; response.
Qed.

(** No API key. *)
Lemma text_keyless :
  method req = "POST" → missing (env !! "GEMINI_API_KEY") = true →
  statusCode (res (handler env req)) = 500
  ∧ sent (res (handler env req))
    = Json (error_body "Server misconfigured: missing GEMINI_API_KEY")
  ∧ calls (handler env req) = [].
Proof.
  intros Hm Hk. unfold handler. cbv zeta. past_method Hm. rewrite Hk. cbv iota.
  repeat split; response.
Qed.

(** A required client token that the request does not carry. *)
Lemma text_unauthorized (key : string) :
  method req = "POST" → env !! "GEMINI_API_KEY" = Some key → key ≠ "" →
  client_token env ≠ "" →
  header_or_empty req "x-client-token" ≠ client_token env →
  statusCode (res (handler env req)) = 401
  ∧ sent (res (handler env req)) = Json (error_body "Unauthorized")
  ∧ calls (handler env req) = [].
Proof.
  intros Hm Hk Hne Hreq Hgot. unfold handler. cbv zeta.
  past_method Hm. past_key Hk Hne.
  pose proof (token_rejected _ _ Hreq Hgot) as E. unfold client_token in E.
  rewrite E. cbv iota. repeat split; response.
Qed.

(** A body that does not parse. *)
Lemma text_invalid_json (key : string) :
  method req = "POST" → env !! "GEMINI_API_KEY" = Some key → key ≠ "" →
  client_token env = ""
  ∨ header_or_empty req "x-client-token" = client_token env →
  parse_body (body req) = None →
  statusCode (res (handler env req)) = 400
  ∧ sent (res (handler env req)) = Json (error_body "Invalid JSON")
  ∧ calls (handler env req) = [].
Proof.
  intros Hm Hk Hne Htok Hb. unfold handler. cbv zeta.
  past_method Hm. past_key Hk Hne. past_token Htok. rewrite Hb.
  repeat split; response.
Qed.

(** An accepted request is forwarded once, sanitized. *)
Lemma text_forwarded (key : string) (b : json) :
  accepted env req key b →
  calls (handler env req) = [upstream_request ENDPOINT key (sanitize b)].
Proof.
  intros Hacc. unfold handler. to_fetch Hacc.
  by destruct (fetch_text _) as [err|[up text]].
Qed.

(** The answer of the upstream is relayed. *)
Lemma text_relay (key : string) (b : json) (up : Upstream) (text : string) :
  accepted env req key b →
  fetch_text (upstream_request ENDPOINT key (sanitize b)) = inr (up, text) →
  statusCode (res (handler env req)) = up_status up
  ∧ sent (res (handler env req)) = Text text
  ∧ headers (res (handler env req)) !! "Content-Type"
    = Some (or_str (up_content_type up) "application/json").
Proof.
  intros Hacc Hf. unfold handler. to_fetch Hacc. rewrite Hf.
  repeat split; repeat case_match; response.
Qed.

(** A failure of the upstream call. *)
Lemma text_upstream_failure (key : string) (b : json) (err : error) :
  accepted env req key b →
  fetch_text (upstream_request ENDPOINT key (sanitize b)) = inl err →
  statusCode (res (handler env req)) = 502
  ∧ sent (res (handler env req))
    = Json (failure_body "Upstream fetch failed" (detail_of err)).
Proof.
  intros Hacc Hf. unfold handler. to_fetch Hacc. rewrite Hf.
  repeat split; response.
Qed.

(** Without a required token the [X-Client-Token] header is not looked at. *)
Lemma text_token_ignored (req' : VercelRequest) :
  client_token env = "" → same_but_token req req' →
  handler env req' = handler env req.
Proof.
  intros Hnone (Hm & Hb & Hh). unfold client_token in Hnone.
  unfold handler, header_or_empty. rewrite Hm, Hb, (Hh "origin") by done.
  rewrite Hnone. by cbn [truthy_str String.eqb negb andb].
Qed.

(** Without an API key a POST request is answered the same way whatever the
    client token of the configuration. *)
Lemma text_keyless_any_token (env' : Env) :
  method req = "POST" → missing (env !! "GEMINI_API_KEY") = true →
  same_but_client_token env env' →
  handler env' req = handler env req.
Proof.
  intros Hm Hk Hsame. unfold handler, getAllowedOrigins. cbv zeta.
  rewrite (Hsame "ALLOWED_ORIGINS"), (Hsame "GEMINI_API_KEY") by done.
  past_method Hm. by rewrite Hk.
Qed.

(** With no client token configured, no path ends in the rejection of the
    token test. *)
Lemma text_never_unauthorized :
  client_token env = "" →
  sent (res (handler env req)) ≠ Json (error_body "Unauthorized").
Proof.
  intros Hnone. unfold client_token in Hnone. unfold handler. cbv zeta.
  rewrite Hnone. cbn [truthy_str String.eqb negb andb].
  repeat case_match; response.
Qed.


Lemma text_reports_failure (key : string) (b : json) (err : error) :
  accepted env req key b →
  fetch_text (upstream_request ENDPOINT key (sanitize b)) = inl err →
  reports_failure (res (handler env req)) err.
Proof.
  intros Hacc Hf.
  destruct (text_upstream_failure key b err Hacc Hf) as (Hs & Ht).
  split; [done|]. exists (detail_of err). split; [done|].
  apply detail_of_cases.
Qed.

(** An accepted request reaches the upstream, whatever the upstream does. *)
Lemma text_forwarded_as (key : string) (b : json) :
  accepted env req key b →
  forwarded_as (handler env req) (JSON_stringify (sanitize b)).
Proof.
  intros Hacc. split; [by rewrite (text_forwarded key b Hacc)|].
  destruct (fetch_text (upstream_request ENDPOINT key (sanitize b)))
    as [err|[up text]] eqn:Hf.
  - destruct (text_upstream_failure key b err Hacc Hf) as (_ & ->). done.
  - destruct (text_relay key b up text Hacc Hf) as (_ & -> & _). done.
Qed.

End WithHost.

End TextFacts.

(** ** The image-preview handler *)

Module ImageFacts.
Import JS Http Steps Props ObjectFacts ResponseFacts AdmissionFacts
  AllowListFacts ImageHandler.
Local Open Scope Z_scope.

(** *** [setCors] *)

Section SetCors.
Variables (env : Env) (originHeader : option string) (r : VercelResponse).

Lemma setCors_fixed :
  headers (setCors env originHeader r) !! "Access-Control-Allow-Methods"
  = Some "POST, OPTIONS"
  ∧ headers (setCors env originHeader r) !! "Access-Control-Allow-Headers"
    = Some "Content-Type, X-Client-Token"
  ∧ headers (setCors env originHeader r) !! "Vary" = Some "Origin".
Proof. unfold setCors. cbv zeta. repeat split; response. Qed.

Lemma setCors_statusCode :
  statusCode (setCors env originHeader r) = statusCode r.
Proof. unfold setCors. cbv zeta. case_match; response. Qed.

Lemma setCors_sent : sent (setCors env originHeader r) = sent r.
Proof. unfold setCors. cbv zeta. case_match; response. Qed.

Lemma setCors_content_type :
  headers (setCors env originHeader r) !! "Content-Type"
  = headers r !! "Content-Type".
Proof. unfold setCors. cbv zeta. case_match; response. Qed.

(** The allow-origin header after [setCors] is the one [setCors] decides
    on, or else the one the response had. *)
Lemma setCors_allow_origin :
  headers (setCors env originHeader r) !! "Access-Control-Allow-Origin"
  = match headers (setCors env originHeader fresh)
          !! "Access-Control-Allow-Origin" with
    | Some v => Some v
    | None => headers r !! "Access-Control-Allow-Origin"
    end.
Proof. unfold setCors. cbv zeta. case_match; response. Qed.

Lemma setCors_refused :
  parseAllowed env ≠ [] →
  nullish_str originHeader "" ∉ parseAllowed env →
  nullish_str originHeader "" ≠ "null" →
  headers (setCors env originHeader fresh) !! "Access-Control-Allow-Origin"
  = None.
Proof.
  intros Hlist Hout Hnull. apply length_nonzero in Hlist.
  apply includes_false in Hout. apply String.eqb_neq in Hnull.
  unfold setCors. cbv zeta. rewrite Hlist, Hout, Hnull.
  cbn [orb truthy_str String.eqb negb]. response.
Qed.

Lemma setCors_allowed :
  parseAllowed env = [] ∨ nullish_str originHeader "" ∈ parseAllowed env
  ∨ nullish_str originHeader "" = "null" →
  headers (setCors env originHeader fresh) !! "Access-Control-Allow-Origin"
  = Some (or_str (Some (nullish_str originHeader "")) "*").
Proof.
  intros Hin.
  assert (Nat.eqb (length (parseAllowed env)) 0
          || Str.includes (nullish_str originHeader "") (parseAllowed env)
          || String.eqb (nullish_str originHeader "") "null" = true) as E.
  { destruct Hin as [->|[Hin| ->]]; [done| |apply orb_true_r].
    apply includes_true in Hin as ->. by rewrite orb_true_r. }
  unfold setCors. cbv zeta. rewrite E, truthy_or_star. response.
Qed.

End SetCors.

(** *** [handler] *)

Section WithHost.
Context `{Host}.
Variables (env : Env) (req : VercelRequest).

(** The fixed headers of [setCors] are on the response of every path. *)
Lemma image_fixed_headers :
  headers (res (handler env req)) !! "Access-Control-Allow-Methods"
  = Some "POST, OPTIONS"
  ∧ headers (res (handler env req)) !! "Access-Control-Allow-Headers"
    = Some "Content-Type, X-Client-Token"
  ∧ headers (res (handler env req)) !! "Vary" = Some "Origin".
Proof.
  unfold handler. cbv zeta.
  repeat split; repeat case_match; response; apply setCors_fixed.
Qed.

(** On every path the allow-origin header is the one [setCors] decides on
    for the origin of the request. *)
Lemma image_allow_origin :
  headers (res (handler env req)) !! "Access-Control-Allow-Origin"
  = headers (setCors env (req_headers req !! "origin") fresh)
      !! "Access-Control-Allow-Origin".
Proof.
  unfold handler. cbv zeta. repeat case_match; response;
    rewrite setCors_allow_origin; response; by case_match.
Qed.

Lemma image_preflight :
  method req = "OPTIONS" →
  statusCode (res (handler env req)) = 204
  ∧ sent (res (handler env req)) = Empty
  ∧ calls (handler env req) = [].
Proof.
  intros Hm. unfold handler. cbv zeta. rewrite Hm.
  change (String.eqb "OPTIONS" "OPTIONS") with true. cbv iota.
  repeat split; response.
Qed.

Lemma image_keyless :
  method req = "POST" → missing (env !! "GEMINI_API_KEY") = true →
  statusCode (res (handler env req)) = 500
  ∧ sent (res (handler env req))
    = Json (error_body "Server misconfigured: missing GEMINI_API_KEY")
  ∧ calls (handler env req) = [].
Proof.
  intros Hm Hk. unfold handler. cbv zeta. past_method Hm. rewrite Hk. cbv iota.
  repeat split; response.
Qed.

Lemma image_unauthorized (key : string) :
  method req = "POST" → env !! "GEMINI_API_KEY" = Some key → key ≠ "" →
  client_token env ≠ "" →
  header_or_empty req "x-client-token" ≠ client_token env →
  statusCode (res (handler env req)) = 401
  ∧ sent (res (handler env req)) = Json (error_body "Unauthorized")
  ∧ calls (handler env req) = [].
Proof.
  intros Hm Hk Hne Hreq Hgot. unfold handler. cbv zeta.
  past_method Hm. past_key Hk Hne.
  pose proof (token_rejected _ _ Hreq Hgot) as E. unfold client_token in E.
  rewrite E. cbv iota. repeat split; response.
Qed.

Lemma image_invalid_json (key : string) :
  method req = "POST" → env !! "GEMINI_API_KEY" = Some key → key ≠ "" →
  client_token env = ""
  ∨ header_or_empty req "x-client-token" = client_token env →
  parse_body (body req) = None →
  statusCode (res (handler env req)) = 400
  ∧ sent (res (handler env req)) = Json (error_body "Invalid JSON")
  ∧ calls (handler env req) = [].
Proof.
  intros Hm Hk Hne Htok Hb. unfold handler. cbv zeta.
  past_method Hm. past_key Hk Hne. past_token Htok. rewrite Hb.
  repeat split; response.
Qed.

Lemma image_forwarded (key : string) (b : json) :
  accepted env req key b →
  calls (handler env req) = [upstream_request ENDPOINT key (sanitize b)].
Proof.
  intros Hacc. unfold handler. to_fetch Hacc.
  by destruct (fetch_text _) as [err|[up text]].
Qed.

Lemma image_relay (key : string) (b : json) (up : Upstream) (text : string) :
  accepted env req key b →
  fetch_text (upstream_request ENDPOINT key (sanitize b)) = inr (up, text) →
  statusCode (res (handler env req)) = up_status up
  ∧ sent (res (handler env req)) = Text text
  ∧ headers (res (handler env req)) !! "Content-Type"
    = Some (or_str (up_content_type up) "application/json").
Proof.
  intros Hacc Hf. unfold handler. to_fetch Hacc. rewrite Hf.
  repeat split; response.
  - rewrite setCors_statusCode. response.
  - rewrite setCors_content_type. response.
Qed.

Lemma image_upstream_failure (key : string) (b : json) (err : error) :
  accepted env req key b →
  fetch_text (upstream_request ENDPOINT key (sanitize b)) = inl err →
  statusCode (res (handler env req)) = 502
  ∧ sent (res (handler env req))
    = Json (failure_body "Upstream fetch failed" (detail_of err)).
Proof.
  intros Hacc Hf. unfold handler. to_fetch Hacc. rewrite Hf.
  repeat split; response.
Qed.

Lemma image_token_ignored (req' : VercelRequest) :
  client_token env = "" → same_but_token req req' →
  handler env req' = handler env req.
Proof.
  intros Hnone (Hm & Hb & Hh). unfold client_token in Hnone.
  unfold handler, header_or_empty. rewrite Hm, Hb, (Hh "origin") by done.
  rewrite Hnone. by cbn [truthy_str String.eqb negb andb].
Qed.

Lemma image_keyless_any_token (env' : Env) :
  method req = "POST" → missing (env !! "GEMINI_API_KEY") = true →
  same_but_client_token env env' →
  handler env' req = handler env req.
Proof.
  intros Hm Hk Hsame. unfold handler, setCors, parseAllowed. cbv zeta.
  rewrite (Hsame "ALLOWED_ORIGINS"), (Hsame "GEMINI_API_KEY") by done.
  past_method Hm. by rewrite Hk.
Qed.

(** The origin [null] of a page loaded from a file is always allowed. *)
Lemma image_null_origin :
  req_headers req !! "origin" = Some "null" →
  headers (res (handler env req)) !! "Access-Control-Allow-Origin"
  = Some "null".
Proof.
  intros Ho. rewrite image_allow_origin, Ho.
  rewrite setCors_allowed; [done|]. by right; right.
Qed.

(** With no client token configured, no path ends in the rejection of the
    token test. *)
Lemma image_never_unauthorized :
  client_token env = "" →
  sent (res (handler env req)) ≠ Json (error_body "Unauthorized").
Proof.
  intros Hnone. unfold client_token in Hnone. unfold handler. cbv zeta.
  rewrite Hnone. cbn [truthy_str String.eqb negb andb].
  repeat case_match; response.
Qed.


Lemma image_reports_failure (key : string) (b : json) (err : error) :
  accepted env req key b →
  fetch_text (upstream_request ENDPOINT key (sanitize b)) = inl err →
  reports_failure (res (handler env req)) err.
Proof.
  intros Hacc Hf.
  destruct (image_upstream_failure key b err Hacc Hf) as (Hs & Ht).
  split; [done|]. exists (detail_of err). split; [done|].
  apply detail_of_cases.
Qed.

(** An accepted request reaches the upstream, whatever the upstream does. *)
Lemma image_forwarded_as (key : string) (b : json) :
  accepted env req key b →
  forwarded_as (handler env req) (JSON_stringify (sanitize b)).
Proof.
  intros Hacc. split; [by rewrite (image_forwarded key b Hacc)|].
  destruct (fetch_text (upstream_request ENDPOINT key (sanitize b)))
    as [err|[up text]] eqn:Hf.
  - destruct (image_upstream_failure key b err Hacc Hf) as (_ & ->). done.
  - destruct (image_relay key b up text Hacc Hf) as (_ & -> & _). done.
Qed.

End WithHost.

End ImageFacts.

(** ** The definitions on concrete inputs *)

Module Scenarios.
Import JS Http Steps Props Sample.
Local Open Scope Z_scope.

Example split_pieces :
  Str.split ","%char "a,,b," = ["a"; ""; "b"; ""]
  ∧ Str.split ","%char "" = [""].
Proof. by split. Qed.

Example trim_both_ends : Str.trim "  a b  " = "a b" ∧ Str.trim "   " = "".
Proof. by split. Qed.

(** White space outside ASCII is trimmed too. *)
Example trim_unicode :
  Str.trim (nbsp +:+ " https://app.example" +:+ nbsp) = "https://app.example"
  ∧ Str.trim nbsp = ""
  ∧ Str.trim ("a" +:+ nbsp +:+ "b") = "a" +:+ nbsp +:+ "b".
Proof. repeat split; vm_compute; reflexivity. Qed.

Example allow_list_with_no_break_spaces :
  TextHandler.getAllowedOrigins
    {[ "ALLOWED_ORIGINS" := nbsp +:+ "https://app.example" +:+ nbsp ]}
  = ["https://app.example"]
  ∧ ImageHandler.parseAllowed
      {[ "ALLOWED_ORIGINS" :=
           "https://app.example," +:+ nbsp +:+ "https://www.app.example" ]}
    = ["https://app.example"; "https://www.app.example"]
  ∧ TextHandler.getAllowedOrigins {[ "ALLOWED_ORIGINS" := nbsp ]} = [].
Proof. repeat split; vm_compute; reflexivity. Qed.

(** An allow-list of white space alone allows every origin. *)
Example scenario_white_allow_list :
  headers (res (TextHandler.handler (H := literal_host (inr ok_json))
                  {[ "ALLOWED_ORIGINS" := nbsp ]} preflight_from_stranger))
    !! "Access-Control-Allow-Origin" = Some "https://evil.example"
  ∧ headers (res (ImageHandler.handler (H := literal_host (inr ok_json))
                    {[ "ALLOWED_ORIGINS" := nbsp ]} preflight_from_stranger))
      !! "Access-Control-Allow-Origin" = Some "https://evil.example".
Proof. split; vm_compute; reflexivity. Qed.

Example allow_list_of_restricted_env :
  TextHandler.getAllowedOrigins restricted_env
  = ["https://app.example"; "https://www.app.example"]
  ∧ ImageHandler.parseAllowed open_env = [].
Proof. split; vm_compute; reflexivity. Qed.

Example sanitize_sample :
  sanitize body_with_mime
  = JObj [("contents", JArr []);
          ("generationConfig", JObj [("temperature", JBool true)])].
Proof. reflexivity. Qed.

Example sanitize_other_values :
  sanitize JNull = JNull
  ∧ sanitize (JArr [JStr "x"]) = JArr [JStr "x"]
  ∧ sanitize (JObj [("generationConfig", JNull)])
    = JObj [("generationConfig", JNull)]
  ∧ sanitize (JObj [("generationConfig", JStr "response_mime_type")])
    = JObj [("generationConfig", JStr "response_mime_type")].
Proof. by repeat split. Qed.

(** A POST with a JSON body, to an upstream that answers 200 with JSON. *)
Example scenario_relay :
  let run := ImageHandler.handler (H := literal_host (inr ok_json))
               open_env post_empty in
  statusCode (res run) = 200
  ∧ sent (res run) = Text "{}"
  ∧ headers (res run) !! "Content-Type" = Some "application/json"
  ∧ headers (res run) !! "Access-Control-Allow-Origin"
    = Some "https://app.example"
  ∧ fetch_headers <$> calls run
    = [[("Content-Type", "application/json"); ("x-goog-api-key", "k-123")]].
Proof. repeat split; vm_compute; reflexivity. Qed.

(** A POST whose body is the malformed text [{bad]. *)
Example scenario_invalid_json :
  let run := TextHandler.handler (H := literal_host (inr ok_json))
               open_env (Request "POST" ∅ (Some (JStr "{bad"))) in
  statusCode (res run) = 400
  ∧ sent (res run) = Json (error_body "Invalid JSON")
  ∧ calls run = [].
Proof. repeat split; vm_compute; reflexivity. Qed.

(** A POST while the upstream cannot be reached. *)
Example scenario_upstream_down :
  let run := ImageHandler.handler (H := literal_host (inl fetch_failed))
               open_env post_empty in
  statusCode (res run) = 502
  ∧ sent (res run)
    = Json (failure_body "Upstream fetch failed" "fetch failed")
  ∧ headers (res run) !! "Vary" = Some "Origin".
Proof. repeat split; vm_compute; reflexivity. Qed.

(** A method that is neither OPTIONS nor POST. *)
Example scenario_get :
  let run := TextHandler.handler (H := literal_host (inr ok_json))
               open_env (Request "GET" ∅ None) in
  statusCode (res run) = 405
  ∧ sent (res run) = Json (error_body "Only POST allowed")
  ∧ headers (res run) !! "Access-Control-Allow-Origin" = Some "*".
Proof. repeat split; vm_compute; reflexivity. Qed.

End Scenarios.

(** * The claims of the specification *)

Module Claims.
Import JS Http Steps Props Sample.
Import ObjectFacts SanitizerFacts ResponseFacts AdmissionFacts AllowListFacts.
Local Open Scope Z_scope.

(** ** CORS *)

(** C1: with a non-empty allow-list and the request origin [null], the
    response should carry [Access-Control-Allow-Origin: null] on both
    handlers.  The text handler has no exception for [null]: for the
    preflight of a page loaded from a file, under an allow-list of two
    origins, it sets no allow-origin header, where the image-preview
    handler answers [null]. *)
Theorem text_handler_refuses_null_origin `{Host} :
  TextHandler.getAllowedOrigins restricted_env
  = ["https://app.example"; "https://www.app.example"]
  ∧ req_headers preflight_from_file !! "origin" = Some "null"
  ∧ headers (res (TextHandler.handler restricted_env preflight_from_file))
      !! "Access-Control-Allow-Origin" = None
  ∧ headers (res (ImageHandler.handler restricted_env preflight_from_file))
      !! "Access-Control-Allow-Origin" = Some "null".
Proof. repeat split; vm_compute; reflexivity. Qed.

(** C3: every response should carry [Access-Control-Allow-Methods],
    [Access-Control-Allow-Headers] and [Vary: Origin].  No path of the text
    handler sets the [Vary] header. *)
Theorem text_handler_never_sets_vary `{Host} (env : Env) (req : VercelRequest) :
  headers (res (TextHandler.handler env req)) !! "Vary" = None.
Proof.
  unfold TextHandler.handler. cbv zeta. repeat case_match; response.
Qed.

(** C8: with a non-empty allow-list, a request whose origin is neither in
    the list nor [null], or that has no origin at all, gets a response
    without [Access-Control-Allow-Origin] from both handlers. *)
Theorem refused_origin_gets_no_allow_origin `{Host}
    (env : Env) (req : VercelRequest) :
  TextHandler.getAllowedOrigins env ≠ [] →
  ((origin_of req ∉ TextHandler.getAllowedOrigins env)
   ∧ origin_of req ≠ "null")
  ∨ req_headers req !! "origin" = None →
  headers (res (TextHandler.handler env req))
    !! "Access-Control-Allow-Origin" = None
  ∧ headers (res (ImageHandler.handler env req))
      !! "Access-Control-Allow-Origin" = None.
Proof.
  intros Hlist Hout.
  assert ((origin_of req ∉ TextHandler.getAllowedOrigins env)
          ∧ origin_of req ≠ "null") as [Hnot Hnull].
  { destruct Hout as [?|Habs]; [done|].
    unfold origin_of, header_or_empty. rewrite Habs. simpl.
    split; [apply allow_list_no_empty|done]. }
  split.
  - by apply TextFacts.text_origin_refused.
  - rewrite ImageFacts.image_allow_origin.
    unfold origin_of, header_or_empty in Hnot, Hnull.
    rewrite or_str_empty in Hnot, Hnull.
    by apply ImageFacts.setCors_refused.
Qed.

Lemma refused_origin_witness :
  headers (res (TextHandler.handler (H := literal_host (inr ok_json))
                  restricted_env preflight_from_stranger))
    !! "Access-Control-Allow-Origin" = None
  ∧ headers (res (ImageHandler.handler (H := literal_host (inr ok_json))
                    restricted_env preflight_from_stranger))
      !! "Access-Control-Allow-Origin" = None.
Proof.
  apply (refused_origin_gets_no_allow_origin
           (H := literal_host (inr ok_json))
           restricted_env preflight_from_stranger).
  - vm_compute. discriminate.
  - left. split.
    + apply includes_false. vm_compute. reflexivity.
    + vm_compute. discriminate.
Defined.

(** C9: a request with method OPTIONS should get status 204, an empty body
    and the CORS headers, among them [Vary: Origin] and the allow-origin
    header of an allowed origin.  The preflight of the text handler has the
    status, the empty body and the two fixed headers, but neither [Vary] nor,
    for the origin [null] under a non-empty allow-list, the allow-origin
    header; the preflight of the image-preview handler has them all. *)
Theorem text_preflight_lacks_vary `{Host} :
  method preflight_from_file = "OPTIONS"
  ∧ (preflight_ack (TextHandler.handler restricted_env preflight_from_file)
     ∧ headers (res (TextHandler.handler restricted_env preflight_from_file))
         !! "Vary" = None
     ∧ headers (res (TextHandler.handler restricted_env preflight_from_file))
         !! "Access-Control-Allow-Origin" = None)
  ∧ (preflight_ack (ImageHandler.handler restricted_env preflight_from_file)
     ∧ headers (res (ImageHandler.handler restricted_env preflight_from_file))
         !! "Vary" = Some "Origin"
     ∧ headers (res (ImageHandler.handler restricted_env preflight_from_file))
         !! "Access-Control-Allow-Origin" = Some "null").
Proof. repeat split; vm_compute; reflexivity. Qed.

(** What both handlers do for a preflight, whatever the configuration and
    the body: status 204, an empty body, no call to the upstream, the two
    fixed headers, and the origin echoed when the allow-list is empty or
    holds it. *)
Theorem options_is_acknowledged `{Host} (env : Env) (req : VercelRequest) :
  method req = "OPTIONS" →
  (preflight_ack (TextHandler.handler env req)
   ∧ preflight_ack (ImageHandler.handler env req))
  ∧ (TextHandler.getAllowedOrigins env = []
     ∨ origin_of req ∈ TextHandler.getAllowedOrigins env →
     headers (res (TextHandler.handler env req))
       !! "Access-Control-Allow-Origin"
     = Some (or_str (Some (origin_of req)) "*")
     ∧ headers (res (ImageHandler.handler env req))
         !! "Access-Control-Allow-Origin"
       = Some (or_str (Some (origin_of req)) "*")).
Proof.
  intros Hm. split; [split|].
  - destruct (TextFacts.text_preflight env req Hm) as (? & ? & ?).
    destruct (TextFacts.text_fixed_headers env req) as (? & ?).
    by repeat split.
  - destruct (ImageFacts.image_preflight env req Hm) as (? & ? & ?).
    destruct (ImageFacts.image_fixed_headers env req) as (? & ? & ?).
    by repeat split.
  - intros Hin. split; [by apply TextFacts.text_origin_allowed|].
    rewrite ImageFacts.image_allow_origin, ImageFacts.setCors_allowed.
    + unfold origin_of, header_or_empty. by rewrite or_str_empty.
    + unfold origin_of, header_or_empty in Hin. rewrite or_str_empty in Hin.
      destruct Hin as [?|?]; [by left|by right; left].
Qed.

Lemma options_witness :
  preflight_ack (TextHandler.handler (H := literal_host (inl fetch_failed))
                   keyless_env preflight_from_file)
  ∧ preflight_ack (ImageHandler.handler (H := literal_host (inl fetch_failed))
                     keyless_env preflight_from_file).
Proof.
  apply (options_is_acknowledged (H := literal_host (inl fetch_failed))
           keyless_env preflight_from_file).
  reflexivity.
Defined.

(** ** Admission *)

(** C6: a POST request to a configuration without [GEMINI_API_KEY] gets
    status 500 and the body [{error: "Server misconfigured: missing
    GEMINI_API_KEY"}] from both handlers.  The body holds no secret: it is
    this constant, and the whole response stays the same when the client
    token of the configuration changes. *)
Theorem missing_api_key_is_500 `{Host} (env : Env) (req : VercelRequest) :
  method req = "POST" →
  env !! "GEMINI_API_KEY" = None →
  (misconfigured (TextHandler.handler env req)
   ∧ misconfigured (ImageHandler.handler env req))
  ∧ ∀ env', same_but_client_token env env' →
      TextHandler.handler env' req = TextHandler.handler env req
      ∧ ImageHandler.handler env' req = ImageHandler.handler env req.
Proof.
  intros Hm Hk.
  assert (missing (env !! "GEMINI_API_KEY") = true) as Hmiss by by rewrite Hk.
  split; [split|].
  - apply (TextFacts.text_keyless env req Hm Hmiss).
  - apply (ImageFacts.image_keyless env req Hm Hmiss).
  - intros env' Hsame. split.
    + by apply TextFacts.text_keyless_any_token.
    + by apply ImageFacts.image_keyless_any_token.
Qed.

Lemma missing_api_key_witness :
  misconfigured (TextHandler.handler (H := literal_host (inr ok_json))
                   keyless_env post_with_token)
  ∧ misconfigured (ImageHandler.handler (H := literal_host (inr ok_json))
                     keyless_env post_with_token).
Proof.
  apply (missing_api_key_is_500 (H := literal_host (inr ok_json))
           keyless_env post_with_token).
  - reflexivity.
  - vm_compute. reflexivity.
Defined.

(** C7, as stated: every POST request without the configured client token
    gets status 401.  A configuration with a client token and no API key
    answers 500 to such a request: the API key is tested first. *)
Lemma token_test_comes_after_key_test :
  method post_with_token = "POST"
  ∧ client_token keyless_env = "s3cret"
  ∧ req_headers post_with_token !! "x-client-token" = Some "wrong"
  ∧ statusCode (res (TextHandler.handler (H := literal_host (inr ok_json))
                       keyless_env post_with_token)) = 500
  ∧ statusCode (res (ImageHandler.handler (H := literal_host (inr ok_json))
                       keyless_env post_with_token)) = 500.
Proof. repeat split; vm_compute; reflexivity. Qed.

(** C7, amended: for a POST request to a configuration that has an API
    key, when a client token is configured and the [X-Client-Token] header is
    absent or differs from it, both handlers answer 401 with body
    [{error: "Unauthorized"}]; when no client token is configured, the header
    is not looked at and no response is that rejection. *)
Theorem client_token_is_enforced `{Host} (env : Env) (req : VercelRequest)
    (key : string) :
  method req = "POST" →
  env !! "GEMINI_API_KEY" = Some key → key ≠ "" →
  (client_token env ≠ "" →
   req_headers req !! "x-client-token" ≠ Some (client_token env) →
   unauthorized (TextHandler.handler env req)
   ∧ unauthorized (ImageHandler.handler env req))
  ∧ (client_token env = "" →
     (¬ unauthorized (TextHandler.handler env req)
      ∧ ¬ unauthorized (ImageHandler.handler env req))
     ∧ ∀ req', same_but_token req req' →
         TextHandler.handler env req' = TextHandler.handler env req
         ∧ ImageHandler.handler env req' = ImageHandler.handler env req).
Proof.
  intros Hm Hk Hne. split.
  - intros Hreq Hgot. pose proof (header_mismatch env req Hreq Hgot) as Hdiff.
    split.
    + apply (TextFacts.text_unauthorized env req key); done.
    + apply (ImageFacts.image_unauthorized env req key); done.
  - intros Hnone. split; [split|].
    + intros (_ & Hsent & _).
      by apply (TextFacts.text_never_unauthorized env req Hnone).
    + intros (_ & Hsent & _).
      by apply (ImageFacts.image_never_unauthorized env req Hnone).
    + intros req' Hsame. split.
      * by apply TextFacts.text_token_ignored.
      * by apply ImageFacts.image_token_ignored.
Qed.

Lemma client_token_witness :
  (unauthorized (TextHandler.handler (H := literal_host (inr ok_json))
                   token_env post_with_token)
   ∧ unauthorized (ImageHandler.handler (H := literal_host (inr ok_json))
                     token_env post_with_token))
  ∧ ¬ unauthorized (TextHandler.handler (H := literal_host (inr ok_json))
                      open_env post_with_token).
Proof.
  split.
  - apply (client_token_is_enforced (H := literal_host (inr ok_json))
             token_env post_with_token "k-123");
      [reflexivity | vm_compute; reflexivity | discriminate
      | vm_compute; discriminate | vm_compute; discriminate].
  - apply (client_token_is_enforced (H := literal_host (inr ok_json))
             open_env post_with_token "k-123");
      [reflexivity | vm_compute; reflexivity | discriminate
      | vm_compute; reflexivity].
Defined.

(** ** The upstream call *)

(** The sample POST request with an empty object passes admission under the
    sample configuration without restrictions. *)
Lemma post_empty_accepted (answer : error + Upstream) :
  accepted (H := literal_host answer) open_env post_empty "k-123" (JObj []).
Proof.
  split; [reflexivity|]. split; [vm_compute; reflexivity|].
  split; [discriminate|]. split; [left; vm_compute; reflexivity|reflexivity].
Qed.







(** ** The request body *)

Lemma literal_host_laws (answer : error + Upstream) :
  HostLaws (literal_host answer).
Proof. by split. Qed.

(** C10, as stated: a POST request whose body is [null] is forwarded with
    the body ["{}"].  [null] is an object for [typeof]: it is taken as it
    is and forwarded as the text ["null"]. *)
Lemma null_body_is_forwarded_as_null :
  accepted (H := literal_host (inr ok_json)) open_env post_null "k-123" JNull
  ∧ body post_null = Some JNull
  ∧ parse_body (H := literal_host (inr ok_json)) (body post_null) = Some JNull
  ∧ fetch_body <$> calls (TextHandler.handler (H := literal_host (inr ok_json))
                            open_env post_null) = ["null"]
  ∧ fetch_body <$> calls (ImageHandler.handler (H := literal_host (inr ok_json))
                            open_env post_null) = ["null"].
Proof.
  split.
  - split; [reflexivity|]. split; [vm_compute; reflexivity|].
    split; [discriminate|]. split; [left; vm_compute; reflexivity|reflexivity].
  - repeat split; vm_compute; reflexivity.
Qed.

(** C10, amended: a POST request that passes the method, API key and
    client token tests and whose body is absent or the empty string is not
    rejected as invalid JSON: its body is taken as the empty object and
    forwarded as ["{}"].  A [null] body is not rejected either; it is
    forwarded as ["null"]. *)
Theorem missing_body_is_empty_object `{Host} (env : Env) (req : VercelRequest)
    (key : string) :
  HostLaws H →
  method req = "POST" →
  env !! "GEMINI_API_KEY" = Some key → key ≠ "" →
  client_token env = ""
  ∨ header_or_empty req "x-client-token" = client_token env →
  (body req = None ∨ body req = Some (JStr "") →
   parse_body (body req) = Some (JObj [])
   ∧ forwarded_as (TextHandler.handler env req) "{}"
   ∧ forwarded_as (ImageHandler.handler env req) "{}")
  ∧ (body req = Some JNull →
     parse_body (body req) = Some JNull
     ∧ forwarded_as (TextHandler.handler env req) "null"
     ∧ forwarded_as (ImageHandler.handler env req) "null").
Proof.
  intros Hlaws Hm Hk Hne Htok. split.
  - intros Hbody.
    assert (parse_body (body req) = Some (JObj [])) as Hparse.
    { destruct Hbody as [-> | ->]; apply parse_empty_object. }
    assert (accepted env req key (JObj [])) as Hacc by done.
    split; [done|].
    rewrite <- stringify_empty_object. split.
    + apply (TextFacts.text_forwarded_as env req key (JObj []) Hacc).
    + apply (ImageFacts.image_forwarded_as env req key (JObj []) Hacc).
  - intros Hbody.
    assert (parse_body (body req) = Some JNull) as Hparse by by rewrite Hbody.
    assert (accepted env req key JNull) as Hacc by done.
    split; [done|].
    rewrite <- stringify_null. split.
    + apply (TextFacts.text_forwarded_as env req key JNull Hacc).
    + apply (ImageFacts.image_forwarded_as env req key JNull Hacc).
Qed.

Lemma missing_body_witness :
  parse_body (H := literal_host (inr ok_json)) (body post_no_body)
  = Some (JObj [])
  ∧ forwarded_as (TextHandler.handler (H := literal_host (inr ok_json))
                    open_env post_no_body) "{}"
  ∧ forwarded_as (ImageHandler.handler (H := literal_host (inr ok_json))
                    open_env post_no_body) "{}".
Proof.
  destruct (missing_body_is_empty_object (H := literal_host (inr ok_json))
              open_env post_no_body "k-123") as [Habsent _].
  - apply literal_host_laws.
  - reflexivity.
  - vm_compute. reflexivity.
  - discriminate.
  - left. vm_compute. reflexivity.
  - apply Habsent. left. reflexivity.
Defined.




End Claims.

(** * Further properties *)

(** ** Splitting and trimming *)

Module StrFacts.
Import JS Shape ObjectFacts.

(** *** Bytes *)

(** Decides the comparisons of byte values in the goal and its context. *)
Ltac bytes :=
  unfold Str.white1, Str.white2, Str.white3, cont in *;
  repeat match goal with
  | H : context [Str.code ?c] |- _ =>
      let n := fresh "n" in
      let E := fresh in remember (Str.code c) as n eqn:E; clear E
  | |- context [Str.code ?c] =>
      let n := fresh "n" in
      let E := fresh in remember (Str.code c) as n eqn:E; clear E
  end;
  repeat (match goal with
          | H : context [Nat.eqb ?a ?b] |- _ => destruct (Nat.eqb_spec a b)
          | H : context [Nat.leb ?a ?b] |- _ => destruct (Nat.leb_spec a b)
          | |- context [Nat.eqb ?a ?b] => destruct (Nat.eqb_spec a b)
          | |- context [Nat.leb ?a ?b] => destruct (Nat.leb_spec a b)
          end;
          cbn [andb orb] in *; try done; try (exfalso; lia)).

Lemma white2_cont (c1 c2 : ascii) :
  Str.white2 c1 c2 = true → Str.white1 c1 = false ∧ cont c2 = true.
Proof. intros Hw. split; bytes. Qed.

Lemma white3_cont (c1 c2 c3 : ascii) :
  Str.white3 c1 c2 c3 = true →
  Str.white1 c1 = false ∧ cont c2 = true ∧ cont c3 = true.
Proof. intros Hw. repeat split; bytes. Qed.

(** A byte that continues a character starts no white space. *)
Lemma cont_skip (c : ascii) (s : string) :
  cont c = true → skip (String c s) = None.
Proof.
  intros Hc. unfold skip.
  assert (Str.white1 c = false) as -> by bytes.
  destruct s as [|c2 s]; [done|].
  assert (Str.white2 c c2 = false) as -> by bytes.
  destruct s as [|c3 s]; [done|].
  assert (Str.white3 c c2 c3 = false) as -> by bytes. done.
Qed.

Lemma code_comma (c : ascii) :
  Ascii.eqb c ","%char = Nat.eqb (Str.code c) 44.
Proof.
  destruct (Ascii.eqb_spec c ","%char) as [->|Hne]; [done|].
  symmetry. apply Nat.eqb_neq. intros Hc. apply Hne.
  rewrite <- (Ascii.ascii_nat_embedding c). unfold Str.code in Hc.
  by rewrite Hc.
Qed.

(** *** Skipping white space *)

Lemma skip_length (s r : string) :
  skip s = Some r → (String.length r < String.length s)%nat.
Proof.
  unfold skip. destruct s as [|c1 [|c2 [|c3 s]]]; simpl;
    repeat case_match; intros; simplify_eq; simpl; lia.
Qed.

(** Induction along the white space at the start of a string. *)
Lemma skip_ind (P : string → Prop) :
  (∀ s, skip s = None → P s) →
  (∀ s r, skip s = Some r → P r → P s) →
  ∀ s, P s.
Proof.
  intros Hnone Hsome s.
  remember (String.length s) as n eqn:Hn. revert s Hn.
  induction n as [n IH] using lt_wf_ind. intros s ->.
  destruct (skip s) as [r|] eqn:Hs; [|by apply Hnone].
  apply (Hsome s r Hs). apply (IH (String.length r)); [|done].
  by apply skip_length.
Qed.

Lemma trimStart_skip (s : string) :
  Str.trimStart s
  = match skip s with Some r => Str.trimStart r | None => s end.
Proof.
  destruct s as [|c1 s1]; [done|]. cbn [Str.trimStart skip].
  destruct (Str.white1 c1); [done|]. destruct s1 as [|c2 s2]; [done|].
  destruct (Str.white2 c1 c2); [done|]. destruct s2 as [|c3 s3]; [done|].
  by destruct (Str.white3 c1 c2 c3).
Qed.

Lemma trimStart_None (s : string) : skip s = None → Str.trimStart s = s.
Proof. intros Hs. by rewrite trimStart_skip, Hs. Qed.

Lemma trimStart_Some (s r : string) :
  skip s = Some r → Str.trimStart s = Str.trimStart r.
Proof. intros Hs. by rewrite trimStart_skip, Hs. Qed.

(** What [trimStart] leaves does not start with white space. *)
Lemma skip_trimStart (s : string) : skip (Str.trimStart s) = None.
Proof.
  induction s as [s Hs|s r Hs IH] using skip_ind.
  - by rewrite trimStart_None.
  - by rewrite (trimStart_Some s r).
Qed.

Lemma trimStart_idem (s : string) :
  Str.trimStart (Str.trimStart s) = Str.trimStart s.
Proof. apply trimStart_None, skip_trimStart. Qed.

(** The three ways a string starts with white space. *)
Lemma skip_Some (s r : string) :
  skip s = Some r →
  (∃ c1, s = String c1 r ∧ Str.white1 c1 = true)
  ∨ (∃ c1 c2, s = String c1 (String c2 r)
              ∧ Str.white1 c1 = false ∧ Str.white2 c1 c2 = true)
  ∨ (∃ c1 c2 c3, s = String c1 (String c2 (String c3 r))
                 ∧ Str.white1 c1 = false ∧ Str.white2 c1 c2 = false
                 ∧ Str.white3 c1 c2 c3 = true).
Proof.
  destruct s as [|c1 s1]; [done|]. cbn [skip].
  destruct (Str.white1 c1) eqn:H1; [intros [= ->]; left; eauto|].
  destruct s1 as [|c2 s2]; [done|].
  destruct (Str.white2 c1 c2) eqn:H2;
    [intros [= ->]; right; left; eauto 6|].
  destruct s2 as [|c3 s3]; [done|].
  destruct (Str.white3 c1 c2 c3) eqn:H3; [|done].
  intros [= ->]. right. right. eauto 8.
Qed.

Lemma skip_has_char (c : ascii) (s r : string) :
  skip s = Some r → has_char c s = false → has_char c r = false.
Proof.
  intros [(c1 & -> & _)|[(c1 & c2 & -> & _)|(c1 & c2 & c3 & -> & _)]]%skip_Some;
    cbn [has_char]; intros H;
    repeat (apply orb_false_elim in H as [_ H]); done.
Qed.

Lemma trimStart_has_char (c : ascii) (s : string) :
  has_char c s = false → has_char c (Str.trimStart s) = false.
Proof.
  induction s as [s Hs|s r Hs IH] using skip_ind.
  - by rewrite trimStart_None.
  - rewrite (trimStart_Some s r Hs). intros Hc. eauto using skip_has_char.
Qed.

(** A string without white space at its start has none at the start of its
    prefixes. *)
Lemma skip_prefix (s rest : string) :
  skip (s +:+ rest) = None → s ≠ "" → skip s = None.
Proof.
  intros Hs _. destruct s as [|c1 [|c2 [|c3 s]]]; [done|..];
    simpl in Hs; cbn [skip]; destruct (Str.white1 c1); try done;
    destruct (Str.white2 c1 c2); try done;
    by destruct (Str.white3 c1 c2 c3).
Qed.

(** *** Trimming the end *)

Lemma all_white_skip (s r : string) :
  skip s = Some r → Str.all_white s = Str.all_white r.
Proof. intros Hs. unfold Str.all_white. by rewrite (trimStart_Some s r). Qed.

Lemma all_white_None (s : string) :
  skip s = None → s ≠ "" → Str.all_white s = false.
Proof.
  intros Hs Hne. unfold Str.all_white. rewrite (trimStart_None s Hs).
  by apply String.eqb_neq.
Qed.

Lemma trimEnd_prefix (s : string) : ∃ rest, s = Str.trimEnd s +:+ rest.
Proof.
  induction s as [|c s [rest IH]]; [by exists ""|].
  cbn [Str.trimEnd]. destruct (Str.all_white (String c s)).
  - by exists (String c s).
  - exists rest. exact (f_equal (String c) IH).
Qed.

Lemma trimEnd_has_char (c : ascii) (s : string) :
  has_char c s = false → has_char c (Str.trimEnd s) = false.
Proof.
  induction s as [|c' s IH]; [done|]. cbn [Str.trimEnd has_char].
  intros [Ec Hs]%orb_false_elim.
  destruct (Str.all_white (String c' s)); [done|].
  simpl. by rewrite Ec, IH.
Qed.

Lemma trim_has_char (c : ascii) (s : string) :
  has_char c s = false → has_char c (Str.trim s) = false.
Proof. intros Hs. by apply trimEnd_has_char, trimStart_has_char. Qed.

Lemma trimEnd_all_white (s : string) :
  Str.all_white s = true → Str.trimEnd s = "".
Proof. destruct s as [|c s]; [done|]. cbn [Str.trimEnd]. by intros ->. Qed.

(** Trimming the end of a string that does not start with white space
    leaves a string that does not either. *)
Lemma skip_trimEnd (s : string) : skip s = None → skip (Str.trimEnd s) = None.
Proof.
  intros Hs. destruct (Str.trimEnd s) as [|c t] eqn:Et; [done|].
  destruct (trimEnd_prefix s) as [rest Hrest]. rewrite Et in Hrest.
  apply (skip_prefix _ rest); [by rewrite <- Hrest|done].
Qed.

(** Trimming the end goes past a white space that is not at the end. *)
Lemma trimEnd_skip (s r : string) :
  skip s = Some r → Str.all_white r = false →
  skip (Str.trimEnd s) = Some (Str.trimEnd r).
Proof.
  intros Hs Hr.
  pose proof (all_white_skip s r Hs) as Hall. rewrite Hr in Hall.
  apply skip_Some in Hs
    as [(c1 & -> & H1)|[(c1 & c2 & -> & H1 & H2)
                       |(c1 & c2 & c3 & -> & H1 & H2 & H3)]].
  - cbn [Str.trimEnd]. rewrite Hall. cbn [skip]. by rewrite H1.
  - destruct (white2_cont _ _ H2) as [_ Hc2].
    cbn [Str.trimEnd]. rewrite Hall.
    rewrite (all_white_None (String c2 r)) by (by try apply cont_skip).
    cbn [skip]. by rewrite H1, H2.
  - destruct (white3_cont _ _ _ H3) as (_ & Hc2 & Hc3).
    cbn [Str.trimEnd]. rewrite Hall.
    rewrite (all_white_None (String c2 (String c3 r)))
      by (by try apply cont_skip).
    rewrite (all_white_None (String c3 r)) by (by try apply cont_skip).
    cbn [skip]. by rewrite H1, H2, H3.
Qed.

(** Trimming the end keeps a string white or not as it was. *)
Lemma all_white_trimEnd (s : string) :
  Str.all_white (Str.trimEnd s) = Str.all_white s.
Proof.
  induction s as [s Hs|s r Hs IH] using skip_ind.
  - destruct s as [|c s]; [done|].
    rewrite (all_white_None (String c s)) by done.
    apply all_white_None; [by apply skip_trimEnd|].
    cbn [Str.trimEnd]. by rewrite (all_white_None (String c s)).
  - destruct (Str.all_white r) eqn:Hr.
    + rewrite (all_white_skip s r Hs), Hr.
      rewrite trimEnd_all_white; [done|]. by rewrite (all_white_skip s r Hs).
    + rewrite (all_white_skip _ _ (trimEnd_skip s r Hs Hr)), IH.
      by rewrite (all_white_skip s r Hs).
Qed.

Lemma trimEnd_idem (s : string) : Str.trimEnd (Str.trimEnd s) = Str.trimEnd s.
Proof.
  induction s as [|c s IH]; [done|].
  destruct (Str.all_white (String c s)) eqn:Hall.
  - by rewrite (trimEnd_all_white _ Hall).
  - pose proof (all_white_trimEnd (String c s)) as Hkeep.
    rewrite Hall in Hkeep. cbn [Str.trimEnd] in *. rewrite Hall in *.
    cbn [Str.trimEnd]. by rewrite Hkeep, IH.
Qed.

Lemma trim_idem (s : string) : Str.trim (Str.trim s) = Str.trim s.
Proof.
  unfold Str.trim.
  rewrite (trimStart_None (Str.trimEnd (Str.trimStart s))).
  - apply trimEnd_idem.
  - apply skip_trimEnd, skip_trimStart.
Qed.

(** *** Pieces of a string of commas and white space *)

Lemma split_not_nil (sep : ascii) (s : string) : Str.split sep s ≠ [].
Proof.
  destruct s as [|c s]; simpl; [done|].
  destruct (Ascii.eqb c sep); [done|]. by destruct (Str.split sep s).
Qed.

(** No piece holds the separator. *)
Lemma split_pieces_no_sep (sep : ascii) (s : string) :
  Forall (λ piece, has_char sep piece = false) (Str.split sep s).
Proof.
  induction s as [|c s IH]; simpl; [by repeat constructor|].
  destruct (Ascii.eqb c sep) eqn:Ec; [by constructor|].
  destruct (Str.split sep s) as [|piece pieces].
  - repeat constructor. simpl. by rewrite Ec.
  - inversion IH as [|? ? Hp Hps]; subst. constructor; [|done].
    simpl. by rewrite Ec.
Qed.

(** A string without separator is its only piece. *)
Lemma split_one (sep : ascii) (s : string) :
  has_char sep s = false → Str.split sep s = [s].
Proof.
  induction s as [|c s IH]; simpl; [done|].
  intros [Ec Hs]%orb_false_elim. rewrite Ec, (IH Hs). done.
Qed.

Lemma split_app (sep : ascii) (s rest : string) :
  has_char sep s = false →
  Str.split sep (s +:+ String sep rest) = s :: Str.split sep rest.
Proof.
  induction s as [|c s IH]; simpl.
  - intros _. by rewrite Ascii.eqb_refl.
  - intros [Ec Hs]%orb_false_elim. rewrite Ec.
    change (String.app s (String sep rest)) with (s +:+ String sep rest).
    by rewrite (IH Hs).
Qed.

(** A byte that is not the separator goes to the first piece. *)
Lemma split_push (sep c : ascii) (s : string) :
  Ascii.eqb c sep = false →
  ∃ piece pieces, Str.split sep s = piece :: pieces
                  ∧ Str.split sep (String c s) = String c piece :: pieces.
Proof.
  intros Ec. cbn [Str.split]. rewrite Ec.
  pose proof (split_not_nil sep s) as Hne.
  destruct (Str.split sep s) as [|piece pieces]; [done|]. eauto.
Qed.

Lemma cont_not_comma (c : ascii) :
  cont c = true → Ascii.eqb c ","%char = false.
Proof. intros Hc. rewrite code_comma. bytes. Qed.

Lemma all_white_skipped (s r : string) :
  skip s = Some r → Str.all_white r = true → Str.all_white s = true.
Proof. intros Hs Hr. by rewrite (all_white_skip s r Hs). Qed.

Lemma split_blank (s : string) :
  blank s = true →
  Forall (λ piece, Str.all_white piece = true) (Str.split ","%char s).
Proof.
  remember (String.length s) as n eqn:Hn. revert s Hn.
  induction n as [n IH] using lt_wf_ind. intros s -> Hb.
  destruct s as [|c1 s1]; [by repeat constructor|]. cbn [blank] in Hb.
  destruct (Ascii.eqb c1 ","%char) eqn:E1.
  { cbn [orb] in Hb. cbn [Str.split]. rewrite E1. constructor; [done|].
    apply (IH (String.length s1)); [simpl; lia|done..]. }
  cbn [orb] in Hb. destruct (Str.white1 c1) eqn:H1.
  { destruct (split_push _ _ s1 E1) as (piece & pieces & Hs1 & ->).
    assert (Forall (λ piece, Str.all_white piece = true)
              (Str.split ","%char s1)) as Hall
      by (apply (IH (String.length s1)); [simpl; lia|done..]).
    rewrite Hs1 in Hall. inversion Hall as [|? ? Hp Hps]; subst.
    constructor; [|done].
    apply (all_white_skipped _ piece); [|done]. cbn [skip]. by rewrite H1. }
  destruct s1 as [|c2 s2]; [done|]. destruct (Str.white2 c1 c2) eqn:H2.
  { destruct (white2_cont _ _ H2) as [_ Hc2].
    destruct (split_push _ c2 s2 (cont_not_comma _ Hc2))
      as (piece & pieces & Hs2 & Hs1).
    destruct (split_push _ c1 (String c2 s2) E1) as (p1 & ps1 & Hs1' & ->).
    rewrite Hs1 in Hs1'. simplify_eq.
    assert (Forall (λ piece, Str.all_white piece = true)
              (Str.split ","%char s2)) as Hall
      by (apply (IH (String.length s2)); [simpl; lia|done..]).
    rewrite Hs2 in Hall. inversion Hall as [|? ? Hp Hps]; subst.
    constructor; [|done].
    apply (all_white_skipped _ piece); [|done]. cbn [skip].
    by rewrite H1, H2. }
  destruct s2 as [|c3 s3]; [done|].
  apply andb_prop in Hb as [H3 Hb].
  destruct (white3_cont _ _ _ H3) as (_ & Hc2 & Hc3).
  destruct (split_push _ c3 s3 (cont_not_comma _ Hc3))
    as (piece & pieces & Hs3 & Hs2).
  destruct (split_push _ c2 (String c3 s3) (cont_not_comma _ Hc2))
    as (p2 & ps2 & Hs2' & Hs1).
  destruct (split_push _ c1 (String c2 (String c3 s3)) E1)
    as (p1 & ps1 & Hs1' & ->).
  rewrite Hs2 in Hs2'. simplify_eq. rewrite Hs1 in Hs1'. simplify_eq.
  assert (Forall (λ piece, Str.all_white piece = true)
            (Str.split ","%char s3)) as Hall
    by (apply (IH (String.length s3)); [simpl; lia|done..]).
  rewrite Hs3 in Hall. inversion Hall as [|? ? Hp Hps]; subst.
  constructor; [|done].
  apply (all_white_skipped _ piece); [|done]. cbn [skip].
  by rewrite H1, H2, H3.
Qed.

(** White space only trims to nothing. *)
Lemma trim_all_white (s : string) : Str.all_white s = true → Str.trim s = "".
Proof.
  unfold Str.trim, Str.all_white. by intros ->%String.eqb_eq.
Qed.

(** A space in front of a string does not change its trimmed pieces. *)
Lemma split_leading_space (s : string) :
  List.map Str.trim (Str.split ","%char (String " "%char s))
  = List.map Str.trim (Str.split ","%char s).
Proof.
  destruct (split_push ","%char " "%char s eq_refl)
    as (piece & pieces & Hs & ->).
  rewrite Hs. cbn [List.map]. f_equal.
Qed.

End StrFacts.

(** ** The allow-list parser *)

Module ParserFacts.
Import JS Http Shape ObjectFacts AllowListFacts StrFacts.

(** The list [getAllowedOrigins] and [parseAllowed] make of the text [s]. *)
Lemma parsed_entries (s : string) :
  Forall entry (List.filter truthy_str
                  (List.map Str.trim (Str.split ","%char s))).
Proof.
  apply Forall_forall. intros x Hx.
  apply list_elem_of_In, filter_In in Hx as [Hin Htruthy].
  apply in_map_iff in Hin as (piece & <- & Hpiece).
  pose proof (split_pieces_no_sep ","%char s) as Hsep.
  rewrite Forall_forall in Hsep.
  split; [by apply truthy_str_true|]. split.
  - apply trim_has_char, Hsep. by apply list_elem_of_In.
  - apply trim_idem.
Qed.

Lemma parsed_blank (s : string) :
  blank s = true →
  List.filter truthy_str (List.map Str.trim (Str.split ","%char s)) = [].
Proof.
  intros Hs. pose proof (split_blank s Hs) as Hwhite.
  induction Hwhite as [|piece pieces Hp _ IH]; [done|].
  simpl. by rewrite (trim_all_white piece Hp).
Qed.

Lemma parsed_joined (l : list string) :
  Forall entry l →
  List.filter truthy_str
    (List.map Str.trim (Str.split ","%char (String.concat ", " l))) = l.
Proof.
  induction 1 as [|x l (Hne & Hcomma & Htrim) Hl IH]; [done|].
  apply truthy_str_true in Hne.
  destruct l as [|y l].
  - simpl. rewrite (split_one _ _ Hcomma). simpl. by rewrite Htrim, Hne.
  - change (String.concat ", " (x :: y :: l))
      with (x +:+ String ","%char
              (String " "%char (String.concat ", " (y :: l)))).
    rewrite (split_app _ _ _ Hcomma).
    cbn [List.map]. rewrite split_leading_space.
    cbn [List.filter]. by rewrite Htrim, Hne, IH.
Qed.

Lemma or_str_Some_empty (s : string) : or_str (Some s) "" = s.
Proof. by rewrite or_str_empty. Qed.

End ParserFacts.

(** ** The paths of the handlers *)

Module PathFacts.
Import JS Http Steps Props Shape.
Import ObjectFacts SanitizerFacts ResponseFacts AdmissionFacts AllowListFacts.
Local Open Scope Z_scope.

Lemma missing_false (v : option string) :
  missing v = false → ∃ key, v = Some key ∧ key ≠ "".
Proof.
  destruct v as [key|]; simpl; [|done]. intros Hk. exists key. split; [done|].
  apply truthy_str_true. by destruct (truthy_str key).
Qed.

Lemma token_test_false (env : Env) (req : VercelRequest) :
  truthy_str (or_str (env !! "CLIENT_TOKEN") "")
  && negb (String.eqb (header_or_empty req "x-client-token")
             (or_str (env !! "CLIENT_TOKEN") "")) = false →
  client_token env = ""
  ∨ header_or_empty req "x-client-token" = client_token env.
Proof.
  unfold client_token. intros [Hnone|Heq]%andb_false_iff.
  - left. by apply truthy_str_false.
  - right. apply negb_false_iff in Heq. by apply String.eqb_eq.
Qed.

Lemma method_post (req : VercelRequest) :
  negb (String.eqb (method req) "POST") = false → method req = "POST".
Proof. intros E%negb_false_iff. by apply String.eqb_eq. Qed.

(** *** The sanitizer *)

Lemma sanitize_object (o c : list (string * json)) (m : json) :
  obj_get "generationConfig" o = Some (JObj c) →
  obj_get "response_mime_type" c = Some m →
  truthy m = true →
  sanitize (JObj o)
  = JObj (obj_set "generationConfig"
            (JObj (obj_delete "response_mime_type" c)) o).
Proof.
  intros Ec Em Ht. unfold sanitize. by rewrite (sanitize_truthy o c m Ec Em Ht).
Qed.

Lemma sanitize_unchanged (b : json) :
  truthy_value (mime_type b) = false → sanitize b = b.
Proof. intros Hf. unfold sanitize. by rewrite sanitize_falsy. Qed.

(** No sanitized body has a truthy [response_mime_type]. *)
Lemma sanitize_clean (b : json) :
  truthy_value (mime_type (sanitize b)) = false.
Proof.
  destruct (truthy_value (mime_type b)) eqn:Ht.
  - destruct (mime_type b) as [m|] eqn:Em; [|done].
    destruct (mime_type_Some _ _ Em) as (o & c & -> & Ec & Eo).
    rewrite (sanitize_object o c m Ec Eo Ht). unfold mime_type.
    cbn [get_opt get]. rewrite obj_get_set_eq. cbn [get_opt get].
    by rewrite obj_get_delete_eq.
  - by rewrite sanitize_unchanged.
Qed.

Lemma keys_obj_set (k : string) (v v' : json) (o : list (string * json)) :
  obj_get k o = Some v' → keys (obj_set k v o) = keys o.
Proof.
  unfold keys. induction o as [|[k1 v1] o IH]; [done|].
  cbn [obj_get obj_set].
  destruct (String.eqb_spec k k1) as [->|Hne]; [done|].
  intros Hget. rewrite !fmap_cons. f_equal. by apply IH.
Qed.

(** *** Headers under any name *)

Lemma lookup_setHeader (name v name' : string) (r : VercelResponse) :
  headers (setHeader name v r) !! name'
  = if decide (name = name') then Some v else headers r !! name'.
Proof. apply lookup_insert. Qed.

(** Reads a header whose name is told apart from the names set by
    hypotheses of the context. *)
Ltac header_at :=
  cbn [res calls];
  repeat first
    [ rewrite lookup_setHeader_ne by congruence
    | rewrite headers_status | rewrite headers_end | rewrite headers_json
    | rewrite headers_send | rewrite lookup_fresh ];
  try done.

(** [setCors] leaves every header but its four alone. *)
Lemma setCors_other (env : Env) (o : option string) (r : VercelResponse)
    (name : string) :
  name ≠ "Access-Control-Allow-Origin" →
  name ≠ "Access-Control-Allow-Methods" →
  name ≠ "Access-Control-Allow-Headers" →
  name ≠ "Vary" →
  headers (ImageHandler.setCors env o r) !! name = headers r !! name.
Proof.
  intros H1 H2 H3 H4. unfold ImageHandler.setCors. cbv zeta.
  case_match; header_at.
Qed.


(** Splits a run along the tests of the admission sequence: preflight,
    wrong method, no API key, wrong token, parsed body, unparsable body. *)
Ltac walk :=
  destruct (String.eqb (method _) "OPTIONS") eqn:Eoptions;
  [| destruct (negb (String.eqb (method _) "POST")) eqn:Epost;
     [| destruct (missing _) eqn:Ekey;
        [| destruct (truthy_str _ && negb _) eqn:Etoken;
           [| destruct (parse_body _) as [b|] eqn:Ebody ]]]].

(** *** The paths of the text handler *)

Section TextHandlerPaths.
Context `{Host}.
Variables (env : Env) (req : VercelRequest).

(** A call to the upstream happens for an accepted request only, once. *)
Lemma text_calls_inv (rq : FetchRequest) :
  rq ∈ calls (TextHandler.handler env req) →
  ∃ key b, accepted env req key b
           ∧ calls (TextHandler.handler env req)
             = [upstream_request TextHandler.ENDPOINT key (sanitize b)].
Proof.
  unfold TextHandler.handler. cbv zeta. walk;
    try (cbn [calls]; by intros ?%elem_of_nil).
  destruct (missing_false _ Ekey) as (key & Hk & Hne). rewrite Hk.
  cbn [nullish_str]. intros _. exists key, b. split.
  - split; [by apply method_post|]. split; [done|]. split; [done|].
    split; [by apply token_test_false|done].
  - by destruct (fetch_text _) as [err|[up text]].
Qed.

(** Every run ends in one of the four shapes. *)
Lemma text_outcome : outcome req (TextHandler.handler env req).
Proof.
  unfold TextHandler.handler. cbv zeta. walk.
  - apply Acknowledged; [by apply String.eqb_eq|..]; response.
  - apply (Rejected _ _ 405 "Only POST allowed"); [set_solver|..]; response.
  - apply (Rejected _ _ 500 "Server misconfigured: missing GEMINI_API_KEY");
      [set_solver|..]; response.
  - apply (Rejected _ _ 401 "Unauthorized"); [set_solver|..]; response.
  - destruct (fetch_text _) as [err|[up text]] eqn:Hf.
    + eapply (Failed _ _ _ (detail_of err));
        [by apply method_post|..]; response.
    + eapply (Relayed _ _ _ text); [by apply method_post|..]; response.
  - apply (Rejected _ _ 400 "Invalid JSON"); [set_solver|..]; response.
Qed.

End TextHandlerPaths.

(** *** The paths of the image-preview handler *)

Section ImageHandlerPaths.
Context `{Host}.
Variables (env : Env) (req : VercelRequest).

(** A call to the upstream happens for an accepted request only, once. *)
Lemma image_calls_inv (rq : FetchRequest) :
  rq ∈ calls (ImageHandler.handler env req) →
  ∃ key b, accepted env req key b
           ∧ calls (ImageHandler.handler env req)
             = [upstream_request ImageHandler.ENDPOINT key (sanitize b)].
Proof.
  unfold ImageHandler.handler. cbv zeta. walk;
    try (cbn [calls]; by intros ?%elem_of_nil).
  destruct (missing_false _ Ekey) as (key & Hk & Hne). rewrite Hk.
  cbn [nullish_str]. intros _. exists key, b. split.
  - split; [by apply method_post|]. split; [done|]. split; [done|].
    split; [by apply token_test_false|done].
  - by destruct (fetch_text _) as [err|[up text]].
Qed.

(** Every run ends in one of the four shapes. *)
Lemma image_outcome : outcome req (ImageHandler.handler env req).
Proof.
  unfold ImageHandler.handler. cbv zeta. walk.
  - apply Acknowledged; [by apply String.eqb_eq|..]; response.
  - apply (Rejected _ _ 405 "Only POST allowed"); [set_solver|..]; response.
  - apply (Rejected _ _ 500 "Server misconfigured: missing GEMINI_API_KEY");
      [set_solver|..]; response.
  - apply (Rejected _ _ 401 "Unauthorized"); [set_solver|..]; response.
  - destruct (fetch_text _) as [err|[up text]] eqn:Hf.
    + eapply (Failed _ _ _ (detail_of err));
        [by apply method_post|..]; response.
    + eapply (Relayed _ _ _ text); [by apply method_post|..]; response.
  - apply (Rejected _ _ 400 "Invalid JSON"); [set_solver|..]; response.
Qed.

End ImageHandlerPaths.

(** *** Headers of the responses *)

(** [header_at], through [setCors] too. *)
Ltac header_through :=
  cbn [res calls];
  repeat first
    [ rewrite lookup_setHeader_ne by congruence
    | rewrite setCors_other by congruence
    | rewrite headers_status | rewrite headers_end | rewrite headers_json
    | rewrite headers_send | rewrite lookup_fresh ];
  try done.

Lemma not_known (name : string) :
  name ∉ known_headers →
  name ≠ "Access-Control-Allow-Origin"
  ∧ name ≠ "Access-Control-Allow-Methods"
  ∧ name ≠ "Access-Control-Allow-Headers"
  ∧ name ≠ "Vary" ∧ name ≠ "Content-Type".
Proof. unfold known_headers. set_solver. Qed.

Section Headers.
Context `{Host}.
Variables (env : Env) (req : VercelRequest).

Lemma text_unknown_header (name : string) :
  name ∉ known_headers →
  headers (res (TextHandler.handler env req)) !! name = None.
Proof.
  intros (H1 & H2 & H3 & H4 & H5)%not_known.
  unfold TextHandler.handler. cbv zeta. repeat case_match; header_through.
Qed.

Lemma image_unknown_header (name : string) :
  name ∉ known_headers →
  headers (res (ImageHandler.handler env req)) !! name = None.
Proof.
  intros (H1 & H2 & H3 & H4 & H5)%not_known.
  unfold ImageHandler.handler. cbv zeta. repeat case_match; header_through.
Qed.

(** The allow-origin header of the text handler, by cases. *)
Lemma text_allow_origin_cases :
  headers (res (TextHandler.handler env req)) !! "Access-Control-Allow-Origin"
  = if decide (TextHandler.getAllowedOrigins env = []
               ∨ origin_of req ∈ TextHandler.getAllowedOrigins env)
    then Some (or_str (Some (origin_of req)) "*")
    else None.
Proof.
  case_decide as Hin; [by apply TextFacts.text_origin_allowed|].
  apply TextFacts.text_origin_refused; tauto.
Qed.

(** The allow-origin header of the image-preview handler, by cases. *)
Lemma image_allow_origin_cases :
  headers (res (ImageHandler.handler env req)) !! "Access-Control-Allow-Origin"
  = if decide (TextHandler.getAllowedOrigins env = []
               ∨ origin_of req ∈ TextHandler.getAllowedOrigins env
               ∨ origin_of req = "null")
    then Some (or_str (Some (origin_of req)) "*")
    else None.
Proof.
  rewrite ImageFacts.image_allow_origin.
  unfold origin_of, header_or_empty. rewrite or_str_empty.
  case_decide as Hin; [by apply ImageFacts.setCors_allowed|].
  apply ImageFacts.setCors_refused; rewrite ?parseAllowed_eq; tauto.
Qed.

End Headers.

End PathFacts.

(** ** Further properties of the two files *)

Module Extras.
Import JS Http Steps Props Shape Sample.
Import ObjectFacts SanitizerFacts ResponseFacts AdmissionFacts AllowListFacts.
Import StrFacts ParserFacts PathFacts.
Local Open Scope Z_scope.

(** *** [getAllowedOrigins] and [parseAllowed] *)

(** Whatever the text of [ALLOWED_ORIGINS], every entry of the parsed
    allow-list is non-empty, holds no comma and has no white space around
    it; both parsers give the same list. *)
Theorem allow_list_entries_are_clean (env : Env) :
  Forall entry (TextHandler.getAllowedOrigins env)
  ∧ ImageHandler.parseAllowed env = TextHandler.getAllowedOrigins env.
Proof. split; [apply parsed_entries|done]. Qed.

(** Entries written one after the other, separated by a comma and a space,
    are read back as they were written, in the same order. *)
Theorem allow_list_round_trip (env : Env) (l : list string) :
  Forall entry l →
  env !! "ALLOWED_ORIGINS" = Some (String.concat ", " l) →
  TextHandler.getAllowedOrigins env = l ∧ ImageHandler.parseAllowed env = l.
Proof.
  intros Hl Henv.
  unfold ImageHandler.parseAllowed, TextHandler.getAllowedOrigins.
  rewrite Henv, or_str_Some_empty. split; by apply parsed_joined.
Qed.

Lemma allow_list_round_trip_witness :
  TextHandler.getAllowedOrigins restricted_env
  = ["https://app.example"; "https://www.app.example"]
  ∧ ImageHandler.parseAllowed restricted_env
    = ["https://app.example"; "https://www.app.example"].
Proof.
  apply (allow_list_round_trip restricted_env
           ["https://app.example"; "https://www.app.example"]).
  - repeat constructor; discriminate.
  - vm_compute. reflexivity.
Defined.

(** An [ALLOWED_ORIGINS] that is unset, empty or made of commas and white
    space only gives the empty allow-list, the one that allows every
    origin. *)
Theorem blank_allow_list_is_empty (env : Env) :
  env !! "ALLOWED_ORIGINS" = None
  ∨ (∃ s, env !! "ALLOWED_ORIGINS" = Some s ∧ blank s = true) →
  TextHandler.getAllowedOrigins env = [] ∧ ImageHandler.parseAllowed env = [].
Proof.
  unfold ImageHandler.parseAllowed, TextHandler.getAllowedOrigins.
  intros [-> | (s & -> & Hs)]; [done|].
  rewrite or_str_Some_empty. split; by apply parsed_blank.
Qed.

Lemma blank_allow_list_witness :
  TextHandler.getAllowedOrigins
    {[ "ALLOWED_ORIGINS" := " ,," +:+ nbsp +:+ ", " ]} = []
  ∧ ImageHandler.parseAllowed
      {[ "ALLOWED_ORIGINS" := " ,," +:+ nbsp +:+ ", " ]} = [].
Proof.
  apply (blank_allow_list_is_empty
           {[ "ALLOWED_ORIGINS" := " ,," +:+ nbsp +:+ ", " ]}).
  right. exists (" ,," +:+ nbsp +:+ ", "). split; vm_compute; reflexivity.
Defined.

(** *** Admission *)

(** A request whose method is neither OPTIONS nor POST gets status 405 and
    the body [{error: "Only POST allowed"}] from both handlers, whatever the
    configuration, and the upstream is not called. *)
Theorem other_methods_are_405 `{Host} (env : Env) (req : VercelRequest) :
  method req ≠ "OPTIONS" → method req ≠ "POST" →
  (statusCode (res (TextHandler.handler env req)) = 405
   ∧ sent (res (TextHandler.handler env req))
     = Json (JObj [("error", JStr "Only POST allowed")])
   ∧ calls (TextHandler.handler env req) = [])
  ∧ (statusCode (res (ImageHandler.handler env req)) = 405
     ∧ sent (res (ImageHandler.handler env req))
       = Json (JObj [("error", JStr "Only POST allowed")])
     ∧ calls (ImageHandler.handler env req) = []).
Proof.
  intros Ho%String.eqb_neq Hp%String.eqb_neq.
  unfold TextHandler.handler, ImageHandler.handler. cbv zeta.
  rewrite Ho, Hp. cbn [negb]. repeat split; response.
Qed.

Lemma other_methods_witness :
  statusCode (res (TextHandler.handler (H := literal_host (inr ok_json))
                     open_env (Request "GET" ∅ None))) = 405
  ∧ statusCode (res (ImageHandler.handler (H := literal_host (inr ok_json))
                       open_env (Request "GET" ∅ None))) = 405.
Proof.
  destruct (other_methods_are_405 (H := literal_host (inr ok_json))
              open_env (Request "GET" ∅ None)) as [(Ht & _) (Hi & _)];
    [discriminate | discriminate | by split].
Defined.

(** A [GEMINI_API_KEY] set to the empty string counts as missing: a POST
    request gets the 500 response of a missing key and the upstream is not
    called. *)
Theorem empty_api_key_is_500 `{Host} (env : Env) (req : VercelRequest) :
  method req = "POST" →
  env !! "GEMINI_API_KEY" = Some "" →
  misconfigured (TextHandler.handler env req)
  ∧ misconfigured (ImageHandler.handler env req).
Proof.
  intros Hm Hk.
  assert (missing (env !! "GEMINI_API_KEY") = true) as Hmiss by by rewrite Hk.
  split.
  - apply (TextFacts.text_keyless env req Hm Hmiss).
  - apply (ImageFacts.image_keyless env req Hm Hmiss).
Qed.

Lemma empty_api_key_witness :
  misconfigured (TextHandler.handler (H := literal_host (inr ok_json))
                   {[ "GEMINI_API_KEY" := "" ]} post_empty)
  ∧ misconfigured (ImageHandler.handler (H := literal_host (inr ok_json))
                     {[ "GEMINI_API_KEY" := "" ]} post_empty).
Proof.
  apply (empty_api_key_is_500 (H := literal_host (inr ok_json))
           {[ "GEMINI_API_KEY" := "" ]} post_empty).
  - reflexivity.
  - vm_compute. reflexivity.
Defined.

(** A POST request that passes the method, API key and client token tests
    and whose body is a non-empty text that [JSON.parse] rejects gets status
    400 and the body [{error: "Invalid JSON"}] from both handlers; the
    upstream is not called. *)
Theorem unparsable_body_is_400 `{Host} (env : Env) (req : VercelRequest)
    (key text : string) :
  cleared env req key →
  body req = Some (JStr text) → text ≠ "" → JSON_parse text = None →
  (statusCode (res (TextHandler.handler env req)) = 400
   ∧ sent (res (TextHandler.handler env req))
     = Json (JObj [("error", JStr "Invalid JSON")])
   ∧ calls (TextHandler.handler env req) = [])
  ∧ (statusCode (res (ImageHandler.handler env req)) = 400
     ∧ sent (res (ImageHandler.handler env req))
       = Json (JObj [("error", JStr "Invalid JSON")])
     ∧ calls (ImageHandler.handler env req) = []).
Proof.
  intros (Hm & Hk & Hne & Htok) Hb Htext Hparse.
  assert (parse_body (body req) = None) as Hnone.
  { rewrite Hb. unfold parse_body. cbn [typeof_object].
    by rewrite (or_str_Some _ _ Htext). }
  split.
  - by apply (TextFacts.text_invalid_json env req key).
  - by apply (ImageFacts.image_invalid_json env req key).
Qed.

Lemma unparsable_body_witness :
  statusCode (res (TextHandler.handler (H := literal_host (inr ok_json))
                     open_env (Request "POST" ∅ (Some (JStr "{bad"))))) = 400
  ∧ statusCode (res (ImageHandler.handler (H := literal_host (inr ok_json))
                       open_env (Request "POST" ∅ (Some (JStr "{bad"))))) = 400.
Proof.
  destruct (unparsable_body_is_400 (H := literal_host (inr ok_json))
              open_env (Request "POST" ∅ (Some (JStr "{bad"))) "k-123" "{bad")
    as [(Ht & _) (Hi & _)].
  - split; [reflexivity|]. split; [vm_compute; reflexivity|].
    split; [discriminate|]. left. vm_compute. reflexivity.
  - reflexivity.
  - discriminate.
  - reflexivity.
  - by split.
Defined.

(** A body that the platform already parsed into an object, an array or
    [null] is not parsed again and never rejected as invalid JSON: once the
    method, API key and client token tests pass, it is sanitized and
    forwarded. *)
Theorem parsed_body_is_forwarded `{Host} (env : Env) (req : VercelRequest)
    (key : string) (j : json) :
  cleared env req key →
  body req = Some j → typeof_object (Some j) = true →
  forwarded_as (TextHandler.handler env req) (JSON_stringify (sanitize j))
  ∧ forwarded_as (ImageHandler.handler env req) (JSON_stringify (sanitize j)).
Proof.
  intros (Hm & Hk & Hne & Htok) Hb Hobj.
  assert (accepted env req key j) as Hacc.
  { repeat (split; [done|]). rewrite Hb. unfold parse_body. by rewrite Hobj. }
  split.
  - by apply (TextFacts.text_forwarded_as env req key j).
  - by apply (ImageFacts.image_forwarded_as env req key j).
Qed.

Lemma parsed_body_witness :
  forwarded_as (TextHandler.handler (H := literal_host (inr ok_json))
                  open_env post_empty) "{}"
  ∧ forwarded_as (ImageHandler.handler (H := literal_host (inr ok_json))
                    open_env post_empty) "{}".
Proof.
  apply (parsed_body_is_forwarded (H := literal_host (inr ok_json))
           open_env post_empty "k-123" (JObj [])).
  - split; [reflexivity|]. split; [vm_compute; reflexivity|].
    split; [discriminate|]. left. vm_compute. reflexivity.
  - reflexivity.
  - reflexivity.
Defined.

(** *** The calls to the upstream *)

(** The upstream is called only for a POST request that passes every
    admission test, and then exactly once by each handler, with the
    sanitized body. *)
Theorem upstream_called_only_when_accepted `{Host}
    (env : Env) (req : VercelRequest) (rq : FetchRequest) :
  rq ∈ calls (TextHandler.handler env req)
  ∨ rq ∈ calls (ImageHandler.handler env req) →
  ∃ key b,
    accepted env req key b
    ∧ calls (TextHandler.handler env req)
      = [upstream_request TextHandler.ENDPOINT key (sanitize b)]
    ∧ calls (ImageHandler.handler env req)
      = [upstream_request ImageHandler.ENDPOINT key (sanitize b)].
Proof.
  intros [Hin|Hin].
  - destruct (text_calls_inv env req rq Hin) as (key & b & Hacc & Hcalls).
    exists key, b. split; [done|]. split; [done|].
    by apply ImageFacts.image_forwarded.
  - destruct (image_calls_inv env req rq Hin) as (key & b & Hacc & Hcalls).
    exists key, b. split; [done|]. split; [|done].
    by apply TextFacts.text_forwarded.
Qed.

Lemma upstream_called_witness :
  ∃ key b,
    accepted (H := literal_host (inr ok_json)) open_env post_empty key b
    ∧ calls (TextHandler.handler (H := literal_host (inr ok_json))
               open_env post_empty)
      = [upstream_request (H := literal_host (inr ok_json))
           TextHandler.ENDPOINT key (sanitize b)]
    ∧ calls (ImageHandler.handler (H := literal_host (inr ok_json))
               open_env post_empty)
      = [upstream_request (H := literal_host (inr ok_json))
           ImageHandler.ENDPOINT key (sanitize b)].
Proof.
  apply (upstream_called_only_when_accepted (H := literal_host (inr ok_json))
           open_env post_empty
           (upstream_request (H := literal_host (inr ok_json))
              TextHandler.ENDPOINT "k-123" (JObj []))).
  left. vm_compute. left.
Defined.

(** Every call goes to the endpoint of its handler, as a POST with a JSON
    content type and the configured API key in the [x-goog-api-key] header;
    nothing of the request decides the destination, and the body sent holds
    no truthy [response_mime_type]. *)
Theorem upstream_call_is_fixed `{Host}
    (env : Env) (req : VercelRequest) (rq : FetchRequest) :
  rq ∈ calls (TextHandler.handler env req)
  ∨ rq ∈ calls (ImageHandler.handler env req) →
  (rq ∈ calls (TextHandler.handler env req) → url rq = TextHandler.ENDPOINT)
  ∧ (rq ∈ calls (ImageHandler.handler env req) →
     url rq = ImageHandler.ENDPOINT)
  ∧ fetch_method rq = "POST"
  ∧ (∃ key, env !! "GEMINI_API_KEY" = Some key ∧ key ≠ ""
            ∧ fetch_headers rq = [("Content-Type", "application/json");
                                  ("x-goog-api-key", key)])
  ∧ ∃ b, fetch_body rq = JSON_stringify b
         ∧ truthy_value (mime_type b) = false.
Proof.
  intros Hin.
  assert (∃ endpoint key b,
            rq = upstream_request endpoint key (sanitize b)
            ∧ env !! "GEMINI_API_KEY" = Some key ∧ key ≠ "") as Hshape.
  { destruct Hin as [Hin|Hin].
    - destruct (text_calls_inv env req rq Hin)
        as (key & b & (_ & Hk & Hne & _) & Hcalls).
      rewrite Hcalls in Hin. apply list_elem_of_singleton in Hin.
      by exists TextHandler.ENDPOINT, key, b.
    - destruct (image_calls_inv env req rq Hin)
        as (key & b & (_ & Hk & Hne & _) & Hcalls).
      rewrite Hcalls in Hin. apply list_elem_of_singleton in Hin.
      by exists ImageHandler.ENDPOINT, key, b. }
  split; [|split].
  - intros Ht.
    destruct (text_calls_inv env req rq Ht) as (key & b & _ & Hcalls).
    rewrite Hcalls in Ht. by apply list_elem_of_singleton in Ht as ->.
  - intros Hi.
    destruct (image_calls_inv env req rq Hi) as (key & b & _ & Hcalls).
    rewrite Hcalls in Hi. by apply list_elem_of_singleton in Hi as ->.
  - destruct Hshape as (endpoint & key & b & -> & Hk & Hne).
    split; [done|]. split; [by exists key|].
    exists (sanitize b). split; [done|apply sanitize_clean].
Qed.

Lemma upstream_call_witness :
  url (upstream_request (H := literal_host (inr ok_json))
         TextHandler.ENDPOINT "k-123" (JObj []))
  = TextHandler.ENDPOINT.
Proof.
  destruct (upstream_call_is_fixed (H := literal_host (inr ok_json))
              open_env post_empty
              (upstream_request (H := literal_host (inr ok_json))
                 TextHandler.ENDPOINT "k-123" (JObj []))) as (Ht & _).
  - left. vm_compute. left.
  - apply Ht. vm_compute. left.
Defined.

(** *** The sanitizer *)

(** Sanitizing twice is sanitizing once. *)
Theorem sanitize_idempotent (b : json) : sanitize (sanitize b) = sanitize b.
Proof. apply sanitize_unchanged, sanitize_clean. Qed.

(** The sanitizer keeps the kind of the body and, for an object, the names
    of its properties and their order: a body that is not an object comes
    back as it was. *)
Theorem sanitize_keeps_keys (b : json) :
  match b with
  | JObj o => ∃ o', sanitize b = JObj o' ∧ keys o' = keys o
  | _ => sanitize b = b
  end.
Proof.
  destruct b as [| | | | |o]; try by apply sanitize_unchanged.
  destruct (truthy_value (mime_type (JObj o))) eqn:Ht.
  - destruct (mime_type (JObj o)) as [m|] eqn:Em; [|done].
    destruct (mime_type_Some _ _ Em) as (o1 & c & [= <-] & Ec & Eo).
    rewrite (sanitize_object o c m Ec Eo Ht). eexists. split; [done|].
    by apply (keys_obj_set _ _ (JObj c)).
  - exists o. split; [by apply sanitize_unchanged|done].
Qed.

(** *** CORS *)

(** With an empty allow-list both handlers allow every origin on every
    path: the origin of the request is echoed, and a request without origin
    gets [*]. *)
Theorem empty_allow_list_allows_all `{Host} (env : Env) (req : VercelRequest) :
  TextHandler.getAllowedOrigins env = [] →
  (headers (res (TextHandler.handler env req)) !! "Access-Control-Allow-Origin"
   = Some (or_str (Some (origin_of req)) "*")
   ∧ headers (res (ImageHandler.handler env req))
       !! "Access-Control-Allow-Origin"
     = Some (or_str (Some (origin_of req)) "*"))
  ∧ (req_headers req !! "origin" = None →
     or_str (Some (origin_of req)) "*" = "*").
Proof.
  intros Hl. split; [split|].
  - rewrite text_allow_origin_cases. case_decide; [done|tauto].
  - rewrite image_allow_origin_cases. case_decide; [done|tauto].
  - intros Ho. unfold origin_of, header_or_empty. by rewrite Ho.
Qed.

Lemma empty_allow_list_witness :
  headers (res (TextHandler.handler (H := literal_host (inr ok_json))
                  open_env post_no_body)) !! "Access-Control-Allow-Origin"
  = Some "*".
Proof.
  destruct (empty_allow_list_allows_all (H := literal_host (inr ok_json))
              open_env post_no_body) as [[Ht _] Hstar].
  - vm_compute. reflexivity.
  - rewrite Ht, Hstar; reflexivity.
Defined.

(** An origin that is an entry of the allow-list is echoed as it is by both
    handlers, on every path. *)
Theorem listed_origin_is_echoed `{Host} (env : Env) (req : VercelRequest) :
  origin_of req ∈ TextHandler.getAllowedOrigins env →
  headers (res (TextHandler.handler env req)) !! "Access-Control-Allow-Origin"
  = Some (origin_of req)
  ∧ headers (res (ImageHandler.handler env req))
      !! "Access-Control-Allow-Origin"
    = Some (origin_of req).
Proof.
  intros Hin.
  assert (or_str (Some (origin_of req)) "*" = origin_of req) as Hecho.
  { apply or_str_Some. intros Hempty. rewrite Hempty in Hin.
    by apply (allow_list_no_empty env). }
  rewrite text_allow_origin_cases, image_allow_origin_cases, Hecho.
  split; case_decide; tauto.
Qed.

Lemma listed_origin_witness :
  headers (res (TextHandler.handler (H := literal_host (inr ok_json))
                  restricted_env post_empty)) !! "Access-Control-Allow-Origin"
  = Some "https://app.example"
  ∧ headers (res (ImageHandler.handler (H := literal_host (inr ok_json))
                    restricted_env post_empty))
      !! "Access-Control-Allow-Origin"
    = Some "https://app.example".
Proof.
  apply (listed_origin_is_echoed (H := literal_host (inr ok_json))
           restricted_env post_empty).
  apply includes_true. vm_compute. reflexivity.
Defined.

(** The image-preview handler answers [Access-Control-Allow-Origin: null]
    to every request whose origin is [null], on every path and under every
    allow-list. *)
Theorem image_handler_allows_null_origin `{Host}
    (env : Env) (req : VercelRequest) :
  req_headers req !! "origin" = Some "null" →
  headers (res (ImageHandler.handler env req)) !! "Access-Control-Allow-Origin"
  = Some "null".
Proof. apply ImageFacts.image_null_origin. Qed.

Lemma image_null_origin_witness :
  headers (res (ImageHandler.handler (H := literal_host (inr ok_json))
                  restricted_env preflight_from_file))
    !! "Access-Control-Allow-Origin"
  = Some "null".
Proof.
  apply (image_handler_allows_null_origin (H := literal_host (inr ok_json))
           restricted_env preflight_from_file).
  vm_compute. reflexivity.
Defined.

(** Every response of the image-preview handler, on every path, carries
    [Access-Control-Allow-Methods], [Access-Control-Allow-Headers] and
    [Vary: Origin]. *)
Theorem image_handler_fixed_headers `{Host} (env : Env) (req : VercelRequest) :
  headers (res (ImageHandler.handler env req)) !! "Access-Control-Allow-Methods"
  = Some "POST, OPTIONS"
  ∧ headers (res (ImageHandler.handler env req))
      !! "Access-Control-Allow-Headers"
    = Some "Content-Type, X-Client-Token"
  ∧ headers (res (ImageHandler.handler env req)) !! "Vary" = Some "Origin".
Proof. apply ImageFacts.image_fixed_headers. Qed.

(** Every response of the text handler, on every path, carries
    [Access-Control-Allow-Methods] and [Access-Control-Allow-Headers]. *)
Theorem text_handler_fixed_headers `{Host} (env : Env) (req : VercelRequest) :
  headers (res (TextHandler.handler env req)) !! "Access-Control-Allow-Methods"
  = Some "POST, OPTIONS"
  ∧ headers (res (TextHandler.handler env req))
      !! "Access-Control-Allow-Headers"
    = Some "Content-Type, X-Client-Token".
Proof. apply TextFacts.text_fixed_headers. Qed.

(** The allow-origin header, when a handler sets it, is the origin of the
    request itself, or [*] for a request without origin: no other origin is
    ever granted. *)
Theorem allow_origin_is_own_origin `{Host} (env : Env) (req : VercelRequest)
    (v : string) :
  headers (res (TextHandler.handler env req)) !! "Access-Control-Allow-Origin"
  = Some v
  ∨ headers (res (ImageHandler.handler env req))
      !! "Access-Control-Allow-Origin" = Some v →
  v = origin_of req ∨ (v = "*" ∧ origin_of req = "").
Proof.
  assert (or_str (Some (origin_of req)) "*" = origin_of req
          ∨ (or_str (Some (origin_of req)) "*" = "*" ∧ origin_of req = ""))
    as Hcases.
  { destruct (decide (origin_of req = "")) as [->|Hne]; [by right|].
    left. by apply or_str_Some. }
  rewrite text_allow_origin_cases, image_allow_origin_cases.
  intros [Hv|Hv]; case_decide; simplify_eq; done.
Qed.

Lemma allow_origin_witness :
  "https://app.example" = origin_of post_empty
  ∨ ("https://app.example" = "*" ∧ origin_of post_empty = "").
Proof.
  apply (allow_origin_is_own_origin (H := literal_host (inr ok_json))
           restricted_env post_empty "https://app.example").
  left. vm_compute. reflexivity.
Defined.

(** No handler sets a response header other than the five CORS and content
    type headers: nothing of the request or of the configuration is copied
    into another header. *)
Theorem only_known_headers `{Host} (env : Env) (req : VercelRequest)
    (name : string) :
  name ∉ known_headers →
  headers (res (TextHandler.handler env req)) !! name = None
  ∧ headers (res (ImageHandler.handler env req)) !! name = None.
Proof.
  intros Hn. split;
    [by apply text_unknown_header | by apply image_unknown_header].
Qed.

Lemma only_known_headers_witness :
  headers (res (TextHandler.handler (H := literal_host (inr ok_json))
                  token_env post_with_token)) !! "x-goog-api-key" = None
  ∧ headers (res (ImageHandler.handler (H := literal_host (inr ok_json))
                    token_env post_with_token)) !! "x-goog-api-key" = None.
Proof.
  apply (only_known_headers (H := literal_host (inr ok_json))
           token_env post_with_token "x-goog-api-key").
  unfold known_headers. intros Hin.
  repeat (apply elem_of_cons in Hin as [Hin|Hin]; [discriminate|]).
  by apply elem_of_nil in Hin.
Defined.

(** *** [setCors] *)

Lemma response_eq (r1 r2 : VercelResponse) :
  statusCode r1 = statusCode r2 → headers r1 = headers r2 →
  sent r1 = sent r2 → r1 = r2.
Proof. destruct r1, r2. simpl. by intros -> -> ->. Qed.

(** Calling [setCors] again with the same origin changes nothing: the
    second call of the relay and failure paths leaves the response of the
    first one. *)
Theorem setCors_idempotent (env : Env) (originHeader : option string)
    (r : VercelResponse) :
  ImageHandler.setCors env originHeader
    (ImageHandler.setCors env originHeader r)
  = ImageHandler.setCors env originHeader r.
Proof.
  apply response_eq.
  - by rewrite !ImageFacts.setCors_statusCode.
  - apply map_eq. intros name.
    destruct (ImageFacts.setCors_fixed env originHeader r) as (M & A & V).
    destruct (ImageFacts.setCors_fixed env originHeader
                (ImageHandler.setCors env originHeader r)) as (M' & A' & V').
    destruct (decide (name = "Access-Control-Allow-Origin")) as [->|H1].
    { rewrite (ImageFacts.setCors_allow_origin env originHeader
                 (ImageHandler.setCors env originHeader r)).
      rewrite (ImageFacts.setCors_allow_origin env originHeader r).
      by destruct (headers (ImageHandler.setCors env originHeader fresh)
                     !! "Access-Control-Allow-Origin"). }
    destruct (decide (name = "Access-Control-Allow-Methods")) as [->|H2];
      [congruence|].
    destruct (decide (name = "Access-Control-Allow-Headers")) as [->|H3];
      [congruence|].
    destruct (decide (name = "Vary")) as [->|H4]; [congruence|].
    by rewrite !setCors_other.
  - by rewrite !ImageFacts.setCors_sent.
Qed.

(** [setCors] touches nothing but its four headers: the status, the body
    and every other header, the content type among them, stay as they
    were. *)
Theorem setCors_frame (env : Env) (originHeader : option string)
    (r : VercelResponse) (name : string) :
  name ∉ ["Access-Control-Allow-Origin"; "Access-Control-Allow-Methods";
          "Access-Control-Allow-Headers"; "Vary"] →
  statusCode (ImageHandler.setCors env originHeader r) = statusCode r
  ∧ sent (ImageHandler.setCors env originHeader r) = sent r
  ∧ headers (ImageHandler.setCors env originHeader r) !! name
    = headers r !! name.
Proof.
  intros Hn. split; [apply ImageFacts.setCors_statusCode|].
  split; [apply ImageFacts.setCors_sent|].
  apply setCors_other; set_solver.
Qed.

Lemma setCors_frame_witness :
  headers (ImageHandler.setCors restricted_env (Some "null")
             (setHeader "Content-Type" "text/plain" (status 429 fresh)))
    !! "Content-Type"
  = Some "text/plain".
Proof.
  destruct (setCors_frame restricted_env (Some "null")
              (setHeader "Content-Type" "text/plain" (status 429 fresh))
              "Content-Type") as (_ & _ & Hh).
  - intros Hin.
    repeat (apply elem_of_cons in Hin as [Hin|Hin]; [discriminate|]).
    by apply elem_of_nil in Hin.
  - rewrite Hh. vm_compute. reflexivity.
Defined.

(** *** The two handlers side by side *)

Lemma unknown (name : string) :
  name ≠ "Access-Control-Allow-Origin" →
  name ≠ "Access-Control-Allow-Methods" →
  name ≠ "Access-Control-Allow-Headers" →
  name ≠ "Vary" → name ≠ "Content-Type" →
  name ∉ known_headers.
Proof.
  intros H1 H2 H3 H4 H5 Hin. unfold known_headers in Hin.
  repeat (apply elem_of_cons in Hin as [Hin|Hin]; [done|]).
  by apply elem_of_nil in Hin.
Qed.

(** Every run of either handler ends in one of four shapes: the preflight
    acknowledgement, one of the four rejections (without a call to the
    upstream), the report of a failed call, or the relay of the answer.  No
    path leaves the response unsent, and none sends a text without having
    called the upstream. *)
Theorem every_run_has_a_shape `{Host} (env : Env) (req : VercelRequest) :
  outcome req (TextHandler.handler env req)
  ∧ outcome req (ImageHandler.handler env req).
Proof. split; [apply text_outcome | apply image_outcome]. Qed.

(** In front of an upstream that answers both endpoints alike, the two
    handlers give the same status and the same body, send the same text to
    the upstream, and set the same headers except for [Vary] and, when the
    origin is [null], [Access-Control-Allow-Origin]. *)
Theorem handlers_agree `{Host} (env : Env) (req : VercelRequest) :
  endpoint_blind →
  statusCode (res (TextHandler.handler env req))
  = statusCode (res (ImageHandler.handler env req))
  ∧ sent (res (TextHandler.handler env req))
    = sent (res (ImageHandler.handler env req))
  ∧ fetch_body <$> calls (TextHandler.handler env req)
    = fetch_body <$> calls (ImageHandler.handler env req)
  ∧ (∀ name, name ≠ "Vary" → name ≠ "Access-Control-Allow-Origin" →
       headers (res (TextHandler.handler env req)) !! name
       = headers (res (ImageHandler.handler env req)) !! name)
  ∧ (origin_of req ≠ "null" →
     headers (res (TextHandler.handler env req))
       !! "Access-Control-Allow-Origin"
     = headers (res (ImageHandler.handler env req))
         !! "Access-Control-Allow-Origin").
Proof.
  intros Hblind.
  assert (statusCode (res (TextHandler.handler env req))
          = statusCode (res (ImageHandler.handler env req))
          ∧ sent (res (TextHandler.handler env req))
            = sent (res (ImageHandler.handler env req))
          ∧ fetch_body <$> calls (TextHandler.handler env req)
            = fetch_body <$> calls (ImageHandler.handler env req)
          ∧ headers (res (TextHandler.handler env req)) !! "Content-Type"
            = headers (res (ImageHandler.handler env req)) !! "Content-Type")
    as (Hstatus & Hsent & Hcalls & Hct).
  { unfold TextHandler.handler, ImageHandler.handler. cbv zeta.
    walk;
      try solve [repeat split; repeat case_match; header_through; response].
    rewrite Hblind.
    destruct (fetch_text _) as [err|[up text]];
      repeat split; repeat case_match; response;
      rewrite ?ImageFacts.setCors_statusCode, ?ImageFacts.setCors_content_type;
      response. }
  split; [done|]. split; [done|]. split; [done|]. split.
  - intros name Hvary Hallow.
    destruct (TextFacts.text_fixed_headers env req) as (Mt & At).
    destruct (ImageFacts.image_fixed_headers env req) as (Mi & Ai & _).
    destruct (decide (name = "Access-Control-Allow-Methods")) as [->|H2];
      [congruence|].
    destruct (decide (name = "Access-Control-Allow-Headers")) as [->|H3];
      [congruence|].
    destruct (decide (name = "Content-Type")) as [->|H5]; [done|].
    by rewrite text_unknown_header, image_unknown_header by by apply unknown.
  - intros Hnull.
    rewrite text_allow_origin_cases, image_allow_origin_cases.
    repeat case_decide; tauto.
Qed.

Lemma handlers_agree_witness :
  statusCode (res (TextHandler.handler (H := literal_host (inr quota_exceeded))
                     restricted_env post_empty))
  = statusCode (res (ImageHandler.handler
                       (H := literal_host (inr quota_exceeded))
                       restricted_env post_empty)).
Proof.
  apply (handlers_agree (H := literal_host (inr quota_exceeded))
           restricted_env post_empty).
  intros key b. reflexivity.
Defined.

(** *** Failures while reading the answer *)

(** When the upstream answers but reading its body fails, both handlers
    report it like a failed call: status 502 and the failure as detail;
    nothing of the answer, not even its status, is relayed. *)
Theorem body_read_failure_is_502 `{Host} (env : Env) (req : VercelRequest)
    (key : string) (b : json) (up : Upstream) (err : error) :
  accepted env req key b →
  up_text up = inl err →
  (fetch (upstream_request TextHandler.ENDPOINT key (sanitize b)) = inr up →
   reports_failure (res (TextHandler.handler env req)) err)
  ∧ (fetch (upstream_request ImageHandler.ENDPOINT key (sanitize b)) = inr up →
     reports_failure (res (ImageHandler.handler env req)) err).
Proof.
  intros Hacc Htext.
  assert (∀ rq, fetch rq = inr up → fetch_text rq = inl err) as Hfail.
  { intros rq Hf. unfold fetch_text. rewrite Hf. simpl. by rewrite Htext. }
  split; intros Hf.
  - apply (TextFacts.text_reports_failure env req key b); [done|].
    by apply Hfail.
  - apply (ImageFacts.image_reports_failure env req key b); [done|].
    by apply Hfail.
Qed.

Lemma body_read_failure_witness :
  reports_failure
    (res (TextHandler.handler
            (H := literal_host
                    (inr (UpstreamResponse 200 None (inl fetch_failed))))
            open_env post_empty)) fetch_failed.
Proof.
  destruct (body_read_failure_is_502
              (H := literal_host
                      (inr (UpstreamResponse 200 None (inl fetch_failed))))
              open_env post_empty "k-123" (JObj [])
              (UpstreamResponse 200 None (inl fetch_failed)) fetch_failed)
    as [Ht _].
  - apply Claims.post_empty_accepted.
  - reflexivity.
  - apply Ht. reflexivity.
Defined.

End Extras.
